(** * HPPS scoring and job matching: a shallow embedding

  This development embeds the scoring engine of [function.py]
  (validators, percentile tables, the four sub-score calculators, the
  dominance penalty and the aggregator [calculate_HPPS]), the two
  helpers of [hpps_improvements.py] that share names with it, and the
  keyword matcher and dual ranker of [job_matching_layer.py].

  Conventions of the embedding.
  - A finite Python [float] is an exact rational ([Q]); NaN and the two
    infinities are separate constructors of [fl], so that the checks
    [math.isnan] and [math.isinf] are modelled, but rounding is not.
    Module [Binary64] re-evaluates the scenario values of the penalty
    and of the scale detection on IEEE binary64 numbers.
  - Python exceptions are values of [exn]; a computation that may raise
    returns a [result].  Code that appends to the shared [warnings] list
    runs in the monad [M], whose state is that list and survives a raise.
  - Built-ins whose text is not part of the repository ([float] on a
    [str], [str] on an arbitrary object, the [.1f] format, [str] of an
    exception) are the fields of the class [Builtins].
  - Dictionaries are [gmap string pyval]; the table [KEYWORD_MAP] is a
    [gmap string (list string)]; the candidate tag set is a [gset string].
  - Keyword text is ASCII: the character classes of the regular
    expressions are modelled on 7-bit characters. *)

From Stdlib Require Import Ascii String QArith Qround Qminmax Lqa Floats Sorted Permutation.
From stdpp Require Import gmap strings list pretty.

Set Default Proof Using "Type".

(* ================================================================== *)
(** * Python values, exceptions and the warnings monad *)
(* ================================================================== *)

Module Py.

(** Python's [min(a, b)] keeps [a] unless [b < a]; [max(a, b)] keeps [a]
    unless [b > a]. *)
Definition Qltb (x y : Q) : bool := negb (Qle_bool y x).
Definition py_min (a b : Q) : Q := if Qltb b a then b else a.
Definition py_max (a b : Q) : Q := if Qltb a b then b else a.
Definition py_min3 (a b c : Q) : Q := py_min (py_min a b) c.

(** The idiom [max(lo, min(hi, x))]. *)
Definition clamp (lo hi x : Q) : Q := py_max lo (py_min hi x).
Definition clamp01 (x : Q) : Q := clamp 0 1 x.

(** [int(x)] on a float truncates toward zero. *)
Definition py_int (x : Q) : Z :=
  if Qltb x 0 then Qceiling x else Qfloor x.

Inductive exn : Type :=
| OverflowError | ValueError | TypeError | ZeroDivisionError | ValidationError.

Inductive result (A : Type) : Type :=
| Ok (a : A)
| Raise (e : exn).
Arguments Ok {A} a.
Arguments Raise {A} e.

Definition result_bind {A B} (r : result A) (k : A -> result B) : result B :=
  match r with
  | Ok a => k a
  | Raise e => Raise e
  end.

(** Floats: finite, infinite (with sign) or NaN. *)
Inductive fl : Type :=
| Fin (q : Q)
| Inf (negative : bool)
| NaN.

#[warnings="-register-all"]
Inductive pyval : Type :=
| VNone
| VBool (b : bool)
| VInt (z : Z)
| VFloat (f : fl)
| VStr (s : string)
| VList (l : list pyval).

(** Truth value of an object, as tested by [if x] and [not x]. *)
Definition truthy (v : pyval) : bool :=
  match v with
  | VNone => false
  | VBool b => b
  | VInt z => negb (z =? 0)%Z
  | VFloat (Fin q) => negb (Qeq_bool q 0)
  | VFloat _ => true
  | VStr s => negb (String.eqb s "")
  | VList l => match l with [] => false | _ => true end
  end.

(** An [int] converts to a [float] unless it rounds to [2^1024] or more;
    the conversion then raises [OverflowError]. *)
Definition int_too_large (z : Z) : bool :=
  (2 ^ 1024 - 2 ^ 970 <=? Z.abs z)%Z.

Class Builtins : Type := {
  (** [float(s)] for a [str]; [None] stands for [ValueError]. *)
  parse_float : string -> option fl;
  (** [str(v)] for an object that is not a [str]. *)
  str_of : pyval -> string;
  (** [f"{x:.1f}"]. *)
  fmt_1f : Q -> string;
  (** [str(e)] for a caught exception. *)
  exn_str : exn -> string
}.

Definition py_str `{Builtins} (v : pyval) : string :=
  match v with
  | VStr s => s
  | _ => str_of v
  end.

(** The state is the [warnings] list, appended to in place. *)
Definition M (A : Type) : Type := list string -> result A * list string.

Definition ret {A} (a : A) : M A := fun w => (Ok a, w).
Definition bind {A B} (m : M A) (k : A -> M B) : M B :=
  fun w => match m w with
           | (Ok a, w') => k a w'
           | (Raise e, w') => (Raise e, w')
           end.
Definition lift {A} (r : result A) : M A := fun w => (r, w).
(** [warnings.append(msg)] *)
Definition warn (msg : string) : M unit := fun w => (Ok tt, w ++ [msg]).
(** [try: m  except Exception as e: h e] *)
Definition try_except {A} (m : M A) (h : exn -> M A) : M A :=
  fun w => match m w with
           | (Ok a, w') => (Ok a, w')
           | (Raise e, w') => h e w'
           end.

End Py.
Import Py.

#[global] Instance M_ret : MRet M := @ret.
#[global] Instance M_bind : MBind M := fun A B k m => bind m k.

(* ================================================================== *)
(** * function.py *)
(* ================================================================== *)

Module Scoring.
Section WithBuiltins.
Context `{Builtins}.
Local Open Scope Q_scope.

(** [safe_float(value, default)].  [None] is Python's [None]; the
    [isinstance(value, (int, float))] branch also takes [bool].  The
    call [math.isnan(value)] converts an [int] first and is not guarded. *)
Definition safe_float (value : pyval) (default : option Q) : result (option Q) :=
  match value with
  | VNone => Ok default
  | VBool b => Ok (Some (if b then 1 else 0))
  | VInt z => if int_too_large z then Raise OverflowError
              else Ok (Some (inject_Z z))
  | VFloat (Fin q) => Ok (Some q)
  | VFloat _ => Ok default
  | VStr s =>
      match parse_float s with
      | Some (Fin q) => Ok (Some q)
      | Some _ => Ok default
      | None => Ok default
      end
  | VList _ => Ok default
  end.

(** [safe_int(value, default)] *)
Definition safe_int (value : pyval) (default : option Z) : result (option Z) :=
  result_bind (safe_float value (inject_Z <$> default)) (fun float_val =>
  match float_val with
  | None => Ok default
  | Some x => Ok (Some (py_int x))
  end).

Definition validate_ratio (value : pyval) (name : string) : M Q :=
  num_val ← lift (safe_float value None);
  match num_val with
  | None =>
      warn (name +:+ " missing, using neutral fallback 0.5") ;; ret 0.5
  | Some n =>
      if Qltb n 0 then
        warn (name +:+ " negative (" +:+ py_str value +:+ "), clamping to 0") ;;
        ret 0
      else if Qltb 1 n then
        warn (name +:+ " > 1.0 (" +:+ py_str value +:+ "), clamping to 1.0") ;;
        ret 1
      else ret n
  end.

Definition validate_count (value : pyval) (name : string) : M Z :=
  num_val ← lift (safe_int value None);
  match num_val with
  | None => warn (name +:+ " missing, using fallback 0") ;; ret 0%Z
  | Some n =>
      if (n <? 0)%Z then
        warn (name +:+ " negative (" +:+ py_str value +:+ "), clamping to 0") ;;
        ret 0%Z
      else ret n
  end.

Definition validate_rating (value : pyval) (name : string) : M (option Q) :=
  num_val ← lift (safe_float value None);
  match num_val with
  | None => ret None
  | Some n =>
      if Qltb n 0 then
        warn (name +:+ " negative (" +:+ py_str value +:+ "), treating as missing") ;;
        ret None
      else ret (Some n)
  end.

Definition validate_ai_score (value : pyval) (name : string) : M Q :=
  num_val ← lift (safe_float value None);
  match num_val with
  | None =>
      warn (name +:+ " missing, using neutral fallback 50.0") ;; ret 50
  | Some n =>
      if Qltb n 0 then
        warn (name +:+ " negative (" +:+ py_str value +:+ "), clamping to 0") ;;
        ret 0
      else ret n
  end.

(** [rating >= c] *)
Definition ge (rating c : Q) : bool := Qle_bool c rating.

Definition cf_percentile_safe (codeforces_rating : option Q) : Q :=
  match codeforces_rating with
  | None => 50
  | Some rating =>
      if ge rating 3000 then 99.93
      else if ge rating 2400 then 99.2
      else if ge rating 2100 then 97
      else if ge rating 1900 then 94
      else if ge rating 1600 then 85
      else if ge rating 1400 then 73
      else if ge rating 1200 then 55
      else if ge rating 1000 then 33
      else if ge rating 800 then 11
      else 5
  end.

Definition lc_percentile_safe (leetcode_rating : option Q) : Q :=
  match leetcode_rating with
  | None => 50
  | Some rating =>
      if ge rating 2500 then 97.63
      else if ge rating 2200 then 91.19
      else if ge rating 2000 then 79.98
      else if ge rating 1850 then 63.77
      else if ge rating 1750 then 49.98
      else if ge rating 1600 then 27.35
      else if ge rating 1500 then 15.09
      else if ge rating 1400 then 6.66
      else if ge rating 1200 then 0.83
      else if ge rating 1000 then 0.4
      else 0.1
  end.

(** The inner [try] of the source guards a comparison of two floats,
    which cannot raise; both fall-through branches are kept. *)
Definition get_best_rating_percentile (CF_rating LC_rating : pyval) : M Q :=
  cf_valid ← validate_rating CF_rating "CF_rating";
  lc_valid ← validate_rating LC_rating "LC_rating";
  match cf_valid, lc_valid with
  | Some c, Some l =>
      if ge c (0.75 * l) then ret (cf_percentile_safe (Some c))
      else ret (lc_percentile_safe (Some l))
  | Some c, None => ret (cf_percentile_safe (Some c))
  | None, Some l => ret (lc_percentile_safe (Some l))
  | None, None =>
      warn "Both CF_rating and LC_rating missing, using neutral baseline 50 percentile" ;;
      ret 50
  end.

(** The normalisers are only ever applied to finite numbers that a
    validator returned, on which [float(value)] is the identity. *)
Definition norm (value min_val max_val : Q) : Q :=
  if Qeq_bool max_val min_val then 0
  else clamp01 ((value - min_val) / (max_val - min_val)).

Definition norm_percentile (percentile_value : Q) : Q :=
  norm percentile_value 0 100.

Definition norm_ratio (ratio_value : Q) : Q := clamp01 ratio_value.

Definition norm_count (count_value max_count : Q) : Q :=
  norm count_value 0 max_count.

Definition normalize_ai_score_at (value threshold : Q) : Q :=
  if Qltb threshold value then norm_percentile value else norm_ratio value.

(** [normalize_ai_score(value)] with the default [threshold=10.0]. *)
Definition normalize_ai_score (value : Q) : Q := normalize_ai_score_at value 10.

(** Each calculator wraps its whole body in [try ... except Exception]:
    [calculate_AD_try] is the [try] block of [calculate_AD], and likewise
    for the other three. *)
Definition calculate_AD_try
    (CF_rating LC_rating CF_hard_problem_ratio LC_medium_hard_ratio : pyval) : M Q :=
  best_percent ← get_best_rating_percentile CF_rating LC_rating;
  let norm_rating := norm_percentile best_percent in
  r1 ← validate_ratio CF_hard_problem_ratio "CF_hard_problem_ratio";
  let norm_cf_hard := norm_ratio r1 in
  r2 ← validate_ratio LC_medium_hard_ratio "LC_medium_hard_ratio";
  let norm_lc_medium_hard := norm_ratio r2 in
  let AD := 0.6 * norm_rating + 0.25 * norm_cf_hard + 0.15 * norm_lc_medium_hard in
  ret (clamp01 AD).

Definition calculate_AD
    (CF_rating LC_rating CF_hard_problem_ratio LC_medium_hard_ratio : pyval) : M Q :=
  try_except
    (calculate_AD_try CF_rating LC_rating CF_hard_problem_ratio LC_medium_hard_ratio)
    (fun e => warn ("Error in calculate_AD: " +:+ exn_str e) ;; ret 0.5).

(** The [try] block of [calculate_EAP]. *)
Definition calculate_EAP_try
    (real_projects_count project_complexity_score stack_diversity
     code_quality_indicators : pyval) : M Q :=
  projects ← validate_count real_projects_count "real_projects_count";
  let norm_projects := norm_count (inject_Z projects) 50 in
  complexity ← validate_ai_score project_complexity_score "project_complexity_score";
  stack ← validate_ai_score stack_diversity "stack_diversity";
  quality ← validate_ai_score code_quality_indicators "code_quality_indicators";
  let norm_complexity := normalize_ai_score complexity in
  let norm_stack := normalize_ai_score stack in
  let norm_quality := normalize_ai_score quality in
  let EAP := 0.4 * norm_projects + 0.25 * norm_complexity
             + 0.2 * norm_stack + 0.15 * norm_quality in
  ret (clamp01 EAP).

Definition calculate_EAP
    (real_projects_count project_complexity_score stack_diversity
     code_quality_indicators : pyval) : M Q :=
  try_except
    (calculate_EAP_try real_projects_count project_complexity_score stack_diversity code_quality_indicators)
    (fun e => warn ("Error in calculate_EAP: " +:+ exn_str e) ;; ret 0.5).

(** The [try] block of [calculate_CCL]. *)
Definition calculate_CCL_try
    (active_months activity_frequency rating_stability longest_streak : pyval) : M Q :=
  months ← validate_count active_months "active_months";
  let norm_months := norm_count (inject_Z months) 60 in
  freq ← lift (safe_float activity_frequency None);
  norm_frequency ←
    match freq with
    | None => warn "activity_frequency missing, using neutral fallback 0.5" ;; ret 0.5
    | Some freq =>
        if Qle_bool freq 1 then ret (norm_ratio freq)
        else ret (norm_count freq 30)
    end;
  stability ← lift (safe_float rating_stability None);
  norm_stability ←
    match stability with
    | None => warn "rating_stability missing, using neutral fallback 0.5" ;; ret 0.5
    | Some stability =>
        if Qle_bool stability 1 then ret (norm_ratio stability)
        else ret (norm_percentile stability)
    end;
  streak ← validate_count longest_streak "longest_streak";
  let norm_streak := norm_count (inject_Z streak) 365 in
  let CCL := 0.4 * norm_months + 0.25 * norm_frequency
             + 0.2 * norm_stability + 0.15 * norm_streak in
  ret (clamp01 CCL).

Definition calculate_CCL
    (active_months activity_frequency rating_stability longest_streak : pyval) : M Q :=
  try_except
    (calculate_CCL_try active_months activity_frequency rating_stability longest_streak)
    (fun e => warn ("Error in calculate_CCL: " +:+ exn_str e) ;; ret 0.5).

(** The [try] block of [calculate_LA]. *)
Definition calculate_LA_try
    (new_tech_usage reusable_components oss_engagement cross_domain_work : pyval) : M Q :=
  new_tech ← validate_ai_score new_tech_usage "new_tech_usage";
  reusable ← validate_ai_score reusable_components "reusable_components";
  oss ← validate_ai_score oss_engagement "oss_engagement";
  cross ← validate_ai_score cross_domain_work "cross_domain_work";
  let norm_new_tech := normalize_ai_score new_tech in
  let norm_reusable := normalize_ai_score reusable in
  let norm_oss := normalize_ai_score oss in
  let norm_cross := normalize_ai_score cross in
  let LA := 0.35 * norm_new_tech + 0.25 * norm_reusable
            + 0.2 * norm_oss + 0.2 * norm_cross in
  ret (clamp01 LA).

Definition calculate_LA
    (new_tech_usage reusable_components oss_engagement cross_domain_work : pyval) : M Q :=
  try_except
    (calculate_LA_try new_tech_usage reusable_components oss_engagement cross_domain_work)
    (fun e => warn ("Error in calculate_LA: " +:+ exn_str e) ;; ret 0.5).

(** [apply_min_dominance_penalty(AD, EAP, CCL, penalty_min, penalty_max,
    warnings)]; [log] is [false] for [warnings=None]. *)
Definition apply_min_dominance_penalty
    (AD EAP CCL penalty_min penalty_max : Q) (log : bool) : M Q :=
  try_except
    (let min_score := py_min3 AD EAP CCL in
     if Qltb min_score 0.4 then
       let penalty :=
         penalty_min + (penalty_max - penalty_min) * (0.4 - min_score) / 0.4 in
       (if log then
          warn ("Minimum dominance rule applied: penalty "
                +:+ fmt_1f (penalty * 100) +:+ "%")
        else ret tt) ;;
       ret (1 - penalty)
     else ret 1)
    (fun e =>
       (if log then warn ("Error in apply_min_dominance_penalty: " +:+ exn_str e)
        else ret tt) ;;
       ret 1).

(** The keyword arguments of [calculate_HPPS]. *)
Record Signals : Type := {
  CF_rating : pyval;
  LC_rating : pyval;
  CF_hard_problem_ratio : pyval;
  LC_medium_hard_ratio : pyval;
  real_projects_count : pyval;
  active_months : pyval;
  activity_frequency : pyval;
  rating_stability : pyval;
  longest_streak : pyval;
  project_complexity_score : pyval;
  code_quality_indicators : pyval;
  stack_diversity : pyval;
  reusable_components : pyval;
  cross_domain_work : pyval;
  oss_engagement : pyval;
  new_tech_usage : pyval
}.

(** The call [calculate_HPPS()] with every argument left at its default. *)
Definition default_signals : Signals := {|
  CF_rating := VNone;
  LC_rating := VNone;
  CF_hard_problem_ratio := VNone;
  LC_medium_hard_ratio := VNone;
  real_projects_count := VNone;
  active_months := VNone;
  activity_frequency := VNone;
  rating_stability := VNone;
  longest_streak := VNone;
  project_complexity_score := VFloat (Fin 50);
  code_quality_indicators := VFloat (Fin 50);
  stack_diversity := VFloat (Fin 50);
  reusable_components := VFloat (Fin 50);
  cross_domain_work := VFloat (Fin 50);
  oss_engagement := VFloat (Fin 50);
  new_tech_usage := VFloat (Fin 50)
|}.

(** The dictionary that [calculate_HPPS] returns. *)
Record CompositeScore : Type := {
  HPPS : Q;
  HPPS_percentage : Q;
  AD : Q;
  EAP : Q;
  CCL : Q;
  LA : Q;
  penalty_applied : bool;
  penalty_multiplier : Q;
  base_HPPS : Q;
  warnings : list string;
  errors : list string
}.

(** The body of the [try] block of [calculate_HPPS]; the two lists are
    filled in by [calculate_HPPS] from the final state. *)
Definition calculate_HPPS_try (s : Signals) : M CompositeScore :=
  ad ← calculate_AD (CF_rating s) (LC_rating s)
         (CF_hard_problem_ratio s) (LC_medium_hard_ratio s);
  eap ← calculate_EAP (real_projects_count s) (project_complexity_score s)
          (stack_diversity s) (code_quality_indicators s);
  ccl ← calculate_CCL (active_months s) (activity_frequency s)
          (rating_stability s) (longest_streak s);
  la ← calculate_LA (new_tech_usage s) (reusable_components s)
         (oss_engagement s) (cross_domain_work s);
  penalty_factor ← apply_min_dominance_penalty ad eap ccl 0.3 0.5 true;
  let base := 0.30 * ad + 0.30 * eap + 0.25 * ccl + 0.15 * la in
  let final_HPPS := penalty_factor * base in
  ret {| HPPS := clamp01 final_HPPS;
         HPPS_percentage := clamp 0 100 (final_HPPS * 100);
         AD := clamp01 ad;
         EAP := clamp01 eap;
         CCL := clamp01 ccl;
         LA := clamp01 la;
         penalty_applied := Qltb penalty_factor 1;
         penalty_multiplier := penalty_factor;
         base_HPPS := clamp01 base;
         warnings := [];
         errors := [] |}.

(** The dictionary of the [except] branch. *)
Definition zero_score (w e : list string) : CompositeScore := {|
  HPPS := 0;
  HPPS_percentage := 0;
  AD := 0;
  EAP := 0;
  CCL := 0;
  LA := 0;
  penalty_applied := false;
  penalty_multiplier := 1;
  base_HPPS := 0;
  warnings := w;
  errors := e
|}.

Definition with_lists (c : CompositeScore) (w e : list string) : CompositeScore := {|
  HPPS := HPPS c;
  HPPS_percentage := HPPS_percentage c;
  AD := AD c;
  EAP := EAP c;
  CCL := CCL c;
  LA := LA c;
  penalty_applied := penalty_applied c;
  penalty_multiplier := penalty_multiplier c;
  base_HPPS := base_HPPS c;
  warnings := w;
  errors := e
|}.

(** What [calculate_HPPS] returns once its [try] block has run: the
    computed dictionary, or the one of the [except] branch. *)
Definition calculate_HPPS_finish (r : result CompositeScore * list string)
  : CompositeScore :=
  match r with
  | (Ok c, w) => with_lists c w []
  | (Raise e, w) =>
      zero_score w ["Critical error in calculate_HPPS: " +:+ exn_str e]
  end.

Definition calculate_HPPS (s : Signals) : CompositeScore :=
  calculate_HPPS_finish (calculate_HPPS_try s []).

End WithBuiltins.
End Scoring.

(* ================================================================== *)
(** * hpps_improvements.py *)
(* ================================================================== *)

Module Improvements.
Section WithBuiltins.
Context `{Builtins}.
Local Open Scope Q_scope.

Record HPPSConfig : Type := {
  max_projects : Z;
  max_active_months : Z;
  max_streak_days : Z;
  max_activity_frequency : Z;
  default_ai_score : Q;
  penalty_threshold : Q;
  penalty_range : Q * Q;
  rating_selection_ratio : Q;
  ai_scale_threshold : Q
}.

(** [HPPSConfig()] *)
Definition default_config : HPPSConfig := {|
  max_projects := 50;
  max_active_months := 60;
  max_streak_days := 365;
  max_activity_frequency := 30;
  default_ai_score := 50;
  penalty_threshold := 0.4;
  penalty_range := (0.3, 0.5);
  rating_selection_ratio := 0.75;
  ai_scale_threshold := 10
|}.

Definition negative_warning (platform : string) (rating : pyval) : string :=
  platform +:+ " rating is negative (" +:+ py_str rating +:+ "), clamping to 0".

(** [validate_rating(rating, platform)]; the state of [M] collects what
    [warnings.warn] is called with. *)
Definition validate_rating (rating : pyval) (platform : string) : M (option fl) :=
  match rating with
  | VNone => ret None
  | VBool b => ret (Some (Fin (if b then 1 else 0)))
  | VInt z =>
      if (z <? 0)%Z then warn (negative_warning platform rating) ;; ret (Some (Fin 0))
      else if int_too_large z then lift (Raise OverflowError)
      else ret (Some (Fin (inject_Z z)))
  | VFloat (Fin q) =>
      if Qltb q 0 then warn (negative_warning platform rating) ;; ret (Some (Fin 0))
      else ret (Some (Fin q))
  | VFloat (Inf true) => warn (negative_warning platform rating) ;; ret (Some (Fin 0))
  | VFloat f => ret (Some f)
  | VStr _ | VList _ => lift (Raise ValidationError)
  end.

Definition norm (value min_val max_val : Q) : result Q :=
  if Qeq_bool max_val min_val then Raise ValueError
  else Ok (clamp01 ((value - min_val) / (max_val - min_val))).

Definition norm_percentile (percentile_value : Q) : result Q :=
  norm percentile_value 0 100.

Definition norm_ratio (ratio_value : Q) : result Q := Ok (clamp01 ratio_value).

(** [normalize_ai_score(value, config, explicit_scale)] *)
Definition normalize_ai_score
    (value : Q) (config : HPPSConfig) (explicit_scale : option string) : result Q :=
  let explicit_scale :=
    match explicit_scale with
    | None => if Qltb (ai_scale_threshold config) value then "0-100" else "0-1"
    | Some s => s
    end in
  if String.eqb explicit_scale "0-1" then norm_ratio value
  else norm_percentile value.

End WithBuiltins.
End Improvements.

(* ================================================================== *)
(** * job_matching_layer.py: keyword normalisation and matching *)
(* ================================================================== *)

Abbreviation dict := (gmap string pyval).

(** [d.get(key)] and [d.get(key, default)] *)
Definition get (d : dict) (key : string) : pyval := default VNone (d !! key).
Definition get_or (d : dict) (key : string) (dflt : pyval) : pyval :=
  default dflt (d !! key).

Module Matcher.

Definition KEYWORD_MAP : gmap string (list string) := list_to_map [
  ("rest_api", ["backend"]);
  ("api", ["backend"]);
  ("flask", ["backend"; "python"]);
  ("django", ["backend"; "python"]);
  ("fastapi", ["backend"; "python"]);
  ("express", ["backend"; "javascript"]);
  ("node", ["backend"; "javascript"]);
  ("spring", ["backend"; "java"]);
  ("rails", ["backend"; "ruby"]);
  ("laravel", ["backend"; "php"]);
  ("sql", ["database"]);
  ("mysql", ["database"]);
  ("postgresql", ["database"]);
  ("postgres", ["database"]);
  ("mongodb", ["database"]);
  ("redis", ["database"]);
  ("react", ["frontend"; "javascript"]);
  ("vue", ["frontend"; "javascript"]);
  ("angular", ["frontend"; "javascript"]);
  ("typescript", ["javascript"]);
  ("javascript", ["javascript"]);
  ("python", ["python"]);
  ("java", ["java"]);
  ("cpp", ["c++"]);
  ("c++", ["c++"]);
  ("c", ["c"]);
  ("go", ["go"]);
  ("rust", ["rust"]);
  ("html", ["frontend"]);
  ("css", ["frontend"]);
  ("docker", ["devops"]);
  ("kubernetes", ["devops"]);
  ("k8s", ["devops"]);
  ("aws", ["cloud"]);
  ("azure", ["cloud"]);
  ("gcp", ["cloud"]);
  ("tensorflow", ["machine_learning"]);
  ("pytorch", ["machine_learning"]);
  ("sklearn", ["machine_learning"]);
  ("pandas", ["data_engineering"]);
  ("spark", ["data_engineering"]);
  ("etl", ["data_engineering"])
].

(** Character classes on ASCII: [str.isspace] (which [\s] follows), [\w]
    and [str.lower]. *)
Definition code (c : ascii) : N := N_of_ascii c.
Definition is_space (c : ascii) : bool :=
  let n := code c in
  ((9 <=? n) && (n <=? 13) || (28 <=? n) && (n <=? 32))%N.
Definition is_upper (c : ascii) : bool :=
  let n := code c in ((65 <=? n) && (n <=? 90))%N.
Definition is_word (c : ascii) : bool :=
  let n := code c in
  ((48 <=? n) && (n <=? 57) || (65 <=? n) && (n <=? 90)
   || (97 <=? n) && (n <=? 122) || (n =? 95))%N.
Definition lower (c : ascii) : ascii :=
  if is_upper c then ascii_of_N (code c + 32) else c.
Definition is_hyphen (c : ascii) : bool := (code c =? 45)%N.
Definition is_underscore (c : ascii) : bool := (code c =? 95)%N.

Fixpoint lstrip (p : ascii -> bool) (l : list ascii) : list ascii :=
  match l with
  | [] => []
  | c :: r => if p c then lstrip p r else l
  end.

(** [s.strip()] with [p := is_space], [s.strip('_')] with [is_underscore]. *)
Definition strip (p : ascii -> bool) (l : list ascii) : list ascii :=
  rev (lstrip p (rev (lstrip p l))).

(** [re.sub(r'[\s-]+', '_', s)]: [in_run] holds inside a run that has
    already produced its underscore. *)
Fixpoint collapse (in_run : bool) (l : list ascii) : list ascii :=
  match l with
  | [] => []
  | c :: r =>
      if is_space c || is_hyphen c
      then (if in_run then collapse true r else "_"%char :: collapse true r)
      else c :: collapse false r
  end.

Definition normalize_keyword (keyword : string) : option string :=
  if String.eqb keyword "" then None else
  let keyword := map lower (strip is_space (list_ascii_of_string keyword)) in
  match keyword with
  | [] => None
  | _ =>
      let keyword := filter (fun c => is_word c || is_space c || is_hyphen c) keyword in
      let keyword := collapse false keyword in
      let keyword := strip is_underscore keyword in
      match keyword with
      | [] => None
      | _ => Some (string_of_list_ascii keyword)
      end
  end.

Section WithBuiltins.
Context `{Builtins}.
Local Open Scope Q_scope.

(** [normalize_student_field(field)] *)
Definition normalize_student_field (field : pyval) : list string :=
  if negb (truthy field) then [] else
  match field with
  | VStr s => match normalize_keyword s with Some k => [k] | None => [] end
  | VList items =>
      omap (fun item => if truthy item then normalize_keyword (py_str item) else None)
           items
  | _ => []
  end.

Definition _check_keyword_match (keyword : string) (all_student_keywords : gset string)
  : bool :=
  if bool_decide (keyword ∈ all_student_keywords) then true
  else match KEYWORD_MAP !! keyword with
       | Some mapped_fields =>
           existsb (fun field => bool_decide (field ∈ all_student_keywords)) mapped_fields
       | None => false
       end.

Record MatchResult : Type := {
  matched_keywords : list string;
  unmatched_keywords : list string;
  total_keywords : nat;
  match_pct : Q;
  mandatory_matched : bool;
  mandatory_matched_keywords : list string;
  mandatory_unmatched_keywords : list string;
  mandatory_count : nat;
  mandatory_matched_count : nat
}.

Definition Qnat (n : nat) : Q := inject_Z (Z.of_nat n).

(** [calculate_keyword_match(student, keywords, mandatory_keywords)];
    a missing or empty [mandatory_keywords] is the empty list. *)
Definition calculate_keyword_match
    (student : dict) (keywords mandatory_keywords : list string) : option MatchResult :=
  if bool_decide (student = ∅) then None else
  match keywords with
  | [] => None
  | _ =>
    let skills := normalize_student_field (get_or student "skills" (VList [])) in
    let tags := normalize_student_field (get_or student "tags" (VList [])) in
    let languages := normalize_student_field (get_or student "languages" (VList [])) in
    let all_student_keywords : gset string := list_to_set (skills ++ tags ++ languages) in
    let matched := filter (fun kw => _check_keyword_match kw all_student_keywords = true) keywords in
    let unmatched := filter (fun kw => _check_keyword_match kw all_student_keywords ≠ true) keywords in
    let normalized := omap normalize_keyword mandatory_keywords in
    let mandatory_matched :=
      filter (fun mkw => _check_keyword_match mkw all_student_keywords = true) normalized in
    let mandatory_unmatched :=
      filter (fun mkw => _check_keyword_match mkw all_student_keywords ≠ true) normalized in
    let total_keywords := length keywords in
    let matched_count := length matched in
    let match_pct :=
      if (total_keywords =? 0)%nat then 0 else Qnat matched_count / Qnat total_keywords in
    let mandatory_met :=
      match mandatory_keywords with
      | [] => true
      | _ => (length mandatory_matched =? length mandatory_keywords)%nat
      end in
    Some {| matched_keywords := matched;
            unmatched_keywords := unmatched;
            total_keywords := total_keywords;
            match_pct := clamp01 match_pct;
            mandatory_matched := mandatory_met;
            mandatory_matched_keywords := mandatory_matched;
            mandatory_unmatched_keywords := mandatory_unmatched;
            mandatory_count := length mandatory_keywords;
            mandatory_matched_count := length mandatory_matched |}
  end.

End WithBuiltins.
End Matcher.

(* ================================================================== *)
(** * job_matching_layer.py: the dual ranker *)
(* ================================================================== *)

Module Ranker.

(** One entry of a ranking view; [rank] is the key [general_rank] of the
    first view and [job_rank] of the second. *)
Record RankingEntry : Type := {
  student_id : Z;
  keyword_match_pct : Q;
  general_score : Q;
  rank : nat;
  matched_keywords : pyval;
  unmatched_keywords : pyval
}.

Record Rankings : Type := {
  general_ranking : list RankingEntry;
  job_specific_ranking : list RankingEntry
}.

(** [sorted(l, key=..., reverse=True)] on the keys already computed: the
    stable descending order.  An element moves past those with a strictly
    greater key only, so equal keys keep the order of the input. *)
Fixpoint insert_desc {A} (x : Q * A) (l : list (Q * A)) : list (Q * A) :=
  match l with
  | [] => [x]
  | y :: ys => if Qltb (fst x) (fst y) then y :: insert_desc x ys else x :: y :: ys
  end.

Definition sorted_reverse {A} (l : list (Q * A)) : list (Q * A) :=
  foldr insert_desc [] l.

(** The keys of [sorted] are computed for the whole list, in order, before
    any comparison; the first key that raises ends the call. *)
Fixpoint keyed {A} (key : A -> result Q) (l : list A) : result (list (Q * A)) :=
  match l with
  | [] => Ok []
  | x :: r =>
      result_bind (key x) (fun k =>
      result_bind (keyed key r) (fun kr => Ok ((k, x) :: kr)))
  end.

Section WithBuiltins.
Context `{Builtins}.
Local Open Scope Q_scope.

(** [safe_float(d.get(key), 0.0)]: with a float default the call returns
    a float. *)
Definition float_field (d : dict) (key : string) : result Q :=
  result_bind (Scoring.safe_float (get d key) (Some 0)) (fun v => Ok (default 0 v)).

(** The first loop of [rank_students]: both fields are read, then both are
    written back into the record itself.  The second component is the
    list of records as the loop leaves it, also when a read raises. *)
Fixpoint coerce_scores (students : list dict) : result unit * list dict :=
  match students with
  | [] => (Ok tt, [])
  | student :: rest =>
      match float_field student "general_score" with
      | Raise e => (Raise e, students)
      | Ok general_score =>
          match float_field student "keyword_match_pct" with
          | Raise e => (Raise e, students)
          | Ok keyword_match_pct =>
              let student' :=
                <["keyword_match_pct" := VFloat (Fin keyword_match_pct)]>
                  (<["general_score" := VFloat (Fin general_score)]> student) in
              let (r, rest') := coerce_scores rest in
              (r, student' :: rest')
          end
      end
  end.

(** The loop [for rank, student in enumerate(ranked, 1)]; a record without
    a usable [student_id] is skipped by [continue]. *)
Fixpoint build_ranking (rank : nat) (ranked : list dict) : result (list RankingEntry) :=
  match ranked with
  | [] => Ok []
  | student :: rest =>
      result_bind (Scoring.safe_int (get student "student_id") None) (fun student_id =>
      match student_id with
      | None => build_ranking (S rank) rest
      | Some student_id =>
          result_bind (float_field student "keyword_match_pct") (fun kmp =>
          result_bind (float_field student "general_score") (fun gs =>
          result_bind (build_ranking (S rank) rest) (fun entries =>
          Ok ({| student_id := student_id;
                 keyword_match_pct := kmp;
                 general_score := gs;
                 rank := rank;
                 matched_keywords := get_or student "matched_keywords" (VList []);
                 unmatched_keywords := get_or student "unmatched_keywords" (VList []) |}
              :: entries))))
      end)
  end.

(** [sorted(students, key=lambda x: safe_float(x.get(field), 0.0), reverse=True)] *)
Definition sorted_by (field : string) (students : list dict) : result (list dict) :=
  result_bind (keyed (fun x => float_field x field) students) (fun ks =>
  Ok (map snd (sorted_reverse ks))).

(** [rank_students(qualified_students)]: the value returned (or the
    exception raised) and the input records as the call leaves them. *)
Definition rank_students (qualified_students : list dict)
  : result Rankings * list dict :=
  match qualified_students with
  | [] => (Ok {| general_ranking := []; job_specific_ranking := [] |}, [])
  | _ =>
      match coerce_scores qualified_students with
      | (Raise e, students) => (Raise e, students)
      | (Ok _, students) =>
          (result_bind (sorted_by "general_score" students) (fun general_ranked =>
           result_bind (sorted_by "keyword_match_pct" students) (fun job_ranked =>
           result_bind (build_ranking 1 general_ranked) (fun general_ranking =>
           result_bind (build_ranking 1 job_ranked) (fun job_specific_ranking =>
           Ok {| general_ranking := general_ranking;
                 job_specific_ranking := job_specific_ranking |})))),
           students)
      end
  end.

End WithBuiltins.
End Ranker.

(* ================================================================== *)
(** * Binary64 re-evaluation of the scenario values *)
(* ================================================================== *)

Module Binary64.
Local Open Scope float_scope.
Set Warnings "-inexact-float".

Definition py_min (a b : float) : float := if PrimFloat.ltb b a then b else a.
Definition py_max (a b : float) : float := if PrimFloat.ltb a b then b else a.
Definition clamp01 (x : float) : float := py_max 0 (py_min 1 x).

(** The value [apply_min_dominance_penalty] returns, on doubles. *)
Definition apply_min_dominance_penalty (AD EAP CCL penalty_min penalty_max : float)
  : float :=
  let min_score := py_min (py_min AD EAP) CCL in
  if PrimFloat.ltb min_score 0.4 then
    let penalty :=
      penalty_min + (penalty_max - penalty_min) * (0.4 - min_score) / 0.4 in
    1 - penalty
  else 1.

Definition norm (value min_val max_val : float) : float :=
  if PrimFloat.eqb max_val min_val then 0
  else clamp01 ((value - min_val) / (max_val - min_val)).

Definition normalize_ai_score (value : float) : float :=
  if PrimFloat.ltb 10 value then norm value 0 100 else clamp01 value.

Set Warnings "+inexact-float".
End Binary64.

(* ================================================================== *)
(** * Concrete inputs used by the examples *)
(* ================================================================== *)

Module Demo.
Local Open Scope Q_scope.

(** A reading of unsigned decimal integers, enough for the examples;
    every other string is rejected as [float] rejects a non-number. *)
Fixpoint digits (acc : Z) (l : list ascii) : option Z :=
  match l with
  | [] => Some acc
  | c :: r =>
      let n := Z.of_N (N_of_ascii c) in
      if ((48 <=? n) && (n <=? 57))%Z then digits (10 * acc + (n - 48)) r else None
  end.

Definition parse (s : string) : option fl :=
  match list_ascii_of_string s with
  | [] => None
  | l => (fun z => Fin (inject_Z z)) <$> digits 0 l
  end.

Definition show (v : pyval) : string :=
  match v with
  | VNone => "None"
  | VBool true => "True"
  | VBool false => "False"
  | VInt z => pretty z
  | VStr s => s
  | _ => "<object>"
  end.

Definition builtins : Builtins := {|
  parse_float := parse;
  str_of := show;
  fmt_1f := fun _ => "<.1f>";
  exn_str := fun e =>
    match e with
    | OverflowError => "int too large to convert to float"
    | _ => "<exception>"
    end
|}.

(** An [int] beyond the range of [float]: [2 ** 1024]. *)
Definition huge : pyval := VInt (2 ^ 1024).

(** [calculate_HPPS(CF_rating=2 ** 1024)]. *)
Definition signals_huge_rating : Scoring.Signals :=
  let d := Scoring.default_signals in
  {| Scoring.CF_rating := huge;
     Scoring.LC_rating := Scoring.LC_rating d;
     Scoring.CF_hard_problem_ratio := Scoring.CF_hard_problem_ratio d;
     Scoring.LC_medium_hard_ratio := Scoring.LC_medium_hard_ratio d;
     Scoring.real_projects_count := Scoring.real_projects_count d;
     Scoring.active_months := Scoring.active_months d;
     Scoring.activity_frequency := Scoring.activity_frequency d;
     Scoring.rating_stability := Scoring.rating_stability d;
     Scoring.longest_streak := Scoring.longest_streak d;
     Scoring.project_complexity_score := Scoring.project_complexity_score d;
     Scoring.code_quality_indicators := Scoring.code_quality_indicators d;
     Scoring.stack_diversity := Scoring.stack_diversity d;
     Scoring.reusable_components := Scoring.reusable_components d;
     Scoring.cross_domain_work := Scoring.cross_domain_work d;
     Scoring.oss_engagement := Scoring.oss_engagement d;
     Scoring.new_tech_usage := Scoring.new_tech_usage d |}.

(** Scenario C: a candidate tagged [python] and [backend]. *)
Definition candidate_c : dict :=
  {[ "tags" := VList [VStr "python"; VStr "backend"] ]}.
Definition keywords_c : list string := ["python"; "fastapi"; "backend"].
Definition mandatory_c : list string := ["python"].

(** Records for the ranker. *)
Definition record (id : pyval) (general keyword : pyval) : dict :=
  {[ "student_id" := id; "general_score" := general; "keyword_match_pct" := keyword ]}.

Definition alice : dict := record (VInt 1) (VFloat (Fin 0.9)) (VFloat (Fin 0.8)).
Definition bob : dict := record (VInt 2) (VFloat (Fin 0.5)) (VFloat (Fin 1)).
(** A record whose [student_id] is [None]. *)
Definition anonymous : dict := record VNone (VFloat (Fin 0.95)) (VFloat (Fin 0.9)).
(** A record that stores its score as text and has no [keyword_match_pct]. *)
Definition textual : dict :=
  {[ "student_id" := VInt 4; "general_score" := VStr "85" ]}.

End Demo.

(* ================================================================== *)
(** * Vocabulary of the statements *)
(* ================================================================== *)

(** [ok_post P m]: whenever [m] returns, what it returns satisfies [P]. *)
Definition ok_post {A} (P : A -> Prop) (m : M A) : Prop :=
  forall w a w1, m w = (Ok a, w1) -> P a.


Module ScoringSpec.
Section WithBuiltins.
Context `{Builtins}.
Local Open Scope Q_scope.
Import Scoring.

(** The multiplier as a function of the three sub-scores. *)
Definition multiplier (ad eap ccl penalty_min penalty_max : Q) : Q :=
  if Qltb (py_min3 ad eap ccl) 0.4
  then 1 - (penalty_min
            + (penalty_max - penalty_min) * (0.4 - py_min3 ad eap ccl) / 0.4)
  else 1.

(** The dictionary of the normal path, from the four sub-scores. *)
Definition assembled (ad eap ccl la : Q) : CompositeScore :=
  let penalty_factor := multiplier ad eap ccl 0.3 0.5 in
  let base := 0.30 * ad + 0.30 * eap + 0.25 * ccl + 0.15 * la in
  let final_HPPS := penalty_factor * base in
  {| HPPS := clamp01 final_HPPS;
     HPPS_percentage := clamp 0 100 (final_HPPS * 100);
     AD := clamp01 ad;
     EAP := clamp01 eap;
     CCL := clamp01 ccl;
     LA := clamp01 la;
     penalty_applied := Qltb penalty_factor 1;
     penalty_multiplier := penalty_factor;
     base_HPPS := clamp01 base;
     warnings := [];
     errors := [] |}.

(** The two consistency conditions between the fields of a score. *)
Definition consistent (c : CompositeScore) : Prop :=
  HPPS_percentage c == HPPS c * 100
  /\ (penalty_applied c = true <-> penalty_multiplier c < 1).

End WithBuiltins.
End ScoringSpec.

(** Descending order of keyed elements. *)
Definition key_ge {A} (x y : Q * A) : Prop := (fst y <= fst x)%Q.

Module RankerSpec.
Section WithBuiltins.
Context `{Builtins}.
Local Open Scope Q_scope.
Import Ranker.

(** A value that [safe_float] converts without raising. *)
Definition convertible (v : pyval) : bool :=
  match v with
  | VInt z => negb (int_too_large z)
  | _ => true
  end.

(** A record none of whose three numeric fields makes a conversion raise. *)
Definition well_formed (r : dict) : bool :=
  convertible (get r "student_id")
  && convertible (get r "general_score")
  && convertible (get r "keyword_match_pct").

(** The float that [safe_float(v, 0.0)] returns. *)
Definition score (v : pyval) : Q :=
  match Scoring.safe_float v (Some 0) with
  | Ok (Some q) => q
  | _ => 0
  end.

(** The record after the two assignments of the first loop. *)
Definition coerced (r : dict) : dict :=
  <["keyword_match_pct" := VFloat (Fin (score (get r "keyword_match_pct")))]>
    (<["general_score" := VFloat (Fin (score (get r "general_score")))]> r).

(** The identifier that [safe_int(student.get("student_id"))] yields. *)
Definition usable_id (r : dict) : option Z :=
  match Scoring.safe_int (get r "student_id") None with
  | Ok o => o
  | Raise _ => None
  end.

(** The entry a record contributes to a view when it is given rank [n]. *)
Definition entry_of (n : nat) (r : dict) : option RankingEntry :=
  match usable_id r with
  | None => None
  | Some id =>
      Some {| student_id := id;
              keyword_match_pct := score (get r "keyword_match_pct");
              general_score := score (get r "general_score");
              rank := n;
              matched_keywords := get_or r "matched_keywords" (VList []);
              unmatched_keywords := get_or r "unmatched_keywords" (VList []) |}
  end.

(** An entry with its rank erased, and the candidates of an input list in
    the order of the input. *)
Definition unranked (e : RankingEntry) : RankingEntry :=
  {| student_id := student_id e;
     keyword_match_pct := keyword_match_pct e;
     general_score := general_score e;
     rank := 0;
     matched_keywords := matched_keywords e;
     unmatched_keywords := unmatched_keywords e |}.

Definition candidates (l : list dict) : list RankingEntry := omap (entry_of 0) l.


(** Descending order of a view by [key]. *)
Definition descending (key : RankingEntry -> Q) (l : list RankingEntry) : Prop :=
  StronglySorted (fun a b => key b <= key a) l.

(** The entries of a list of records that is already in rank order,
    the first record having rank [n]. *)
Fixpoint ranked_entries (n : nat) (l : list dict) : list RankingEntry :=
  match l with
  | [] => []
  | r :: rest =>
      match entry_of n r with
      | Some e => e :: ranked_entries (S n) rest
      | None => ranked_entries (S n) rest
      end
  end.

(** The records in stable descending order of the float in [field]. *)
Definition ordered_by (field : string) (l : list dict) : list dict :=
  map snd (sorted_reverse (map (fun r => (score (get r field), r)) l)).

(** Both fields already hold finite floats. *)
Definition holds_floats (r : dict) : Prop :=
  exists g k, r !! "general_score" = Some (VFloat (Fin g))
              /\ r !! "keyword_match_pct" = Some (VFloat (Fin k)).

End WithBuiltins.
End RankerSpec.

(* ================================================================== *)
(** * function.py: the second penalty function *)
(* ================================================================== *)

Module Penalty.
Local Open Scope Q_scope.


End Penalty.

(** [appends m]: the result of [m] and the warnings it adds do not depend
    on the warnings already recorded, and nothing recorded is dropped. *)
Definition appends {A} (m : M A) : Prop :=
  exists (r : result A) (added : list string), forall w, m w = (r, w ++ added).

(* ================================================================== *)
(** * job_matching_layer.py: keyword lists, qualification, the pipeline *)
(* ================================================================== *)

Module Keywords.
Import Matcher.

(** The loop of [normalize_keywords]: [normalized] and [seen] are the two
    accumulators, and [break] returns at once. *)
Fixpoint normalize_loop (max_count : Z) (normalized : list string)
    (seen : gset string) (keywords : list string) : list string :=
  match keywords with
  | [] => normalized
  | kw :: rest =>
      match normalize_keyword kw with
      | Some normalized_kw =>
          if bool_decide (normalized_kw ∈ seen)
          then normalize_loop max_count normalized seen rest
          else
            let normalized := normalized ++ [normalized_kw] in
            let seen := {[normalized_kw]} ∪ seen in
            if (max_count <=? Z.of_nat (length normalized))%Z then normalized
            else normalize_loop max_count normalized seen rest
      | None => normalize_loop max_count normalized seen rest
      end
  end.

(** [normalize_keywords(keywords, max_count)] on a list of strings. *)
Definition normalize_keywords (keywords : list string) (max_count : Z) : list string :=
  match keywords with
  | [] => []
  | _ => normalize_loop max_count [] ∅ keywords
  end.

(** A keyword as [normalize_keyword] leaves it: lower-case letters,
    digits and underscores, not empty, no underscore at either end. *)
Definition slug_char (c : ascii) : bool := is_word c && negb (is_upper c).

Definition is_slug (l : list ascii) : Prop :=
  l <> []
  /\ Forall (fun c => slug_char c = true) l
  /\ (forall c, head l = Some c -> is_underscore c = false)
  /\ (forall c, last l = Some c -> is_underscore c = false).

End Keywords.

Module JobProfile.
Import Matcher Ranker.

Section WithBuiltins.
Context `{Builtins}.
Local Open Scope Q_scope.

(** The dictionary that [calculate_keyword_match] returns. *)
Definition match_dict (m : MatchResult) : dict :=
  list_to_map [
    ("matched_keywords", VList (VStr <$> Matcher.matched_keywords m));
    ("unmatched_keywords", VList (VStr <$> Matcher.unmatched_keywords m));
    ("total_keywords", VInt (Z.of_nat (total_keywords m)));
    ("match_pct", VFloat (Fin (match_pct m)));
    ("mandatory_matched", VBool (mandatory_matched m));
    ("mandatory_matched_keywords", VList (VStr <$> mandatory_matched_keywords m));
    ("mandatory_unmatched_keywords", VList (VStr <$> mandatory_unmatched_keywords m));
    ("mandatory_count", VInt (Z.of_nat (mandatory_count m)));
    ("mandatory_matched_count", VInt (Z.of_nat (mandatory_matched_count m)))
  ].

(** [is_qualified(student_match, min_match_threshold)]; the value of
    [x and y] is [x] when [x] is false and [y] otherwise. *)
Definition is_qualified (student_match : dict) (min_match_threshold : Q)
  : result pyval :=
  if bool_decide (student_match = ∅) then Ok (VBool false) else
  result_bind (float_field student_match "match_pct") (fun match_pct =>
  let mandatory_met := get_or student_match "mandatory_matched" (VBool false) in
  Ok (if Qle_bool min_match_threshold match_pct then mandatory_met else VBool false)).

Record JobRequest : Type := {
  request_student_id : Z;
  job_id : string;
  status : string;
  request_keyword_match_pct : Q
}.

(** The loop of [generate_job_requests]. *)
Fixpoint request_loop (job_id : string) (qualified_students : list dict)
  : result (list JobRequest) :=
  match qualified_students with
  | [] => Ok []
  | student :: rest =>
      result_bind (Scoring.safe_int (get student "student_id") None) (fun student_id =>
      match student_id with
      | None => request_loop job_id rest
      | Some student_id =>
          result_bind (float_field student "keyword_match_pct") (fun keyword_match_pct =>
          result_bind (request_loop job_id rest) (fun requests =>
          Ok ({| request_student_id := student_id;
                 job_id := job_id;
                 status := "PENDING";
                 request_keyword_match_pct := keyword_match_pct |} :: requests)))
      end)
  end.

(** [generate_job_requests(qualified_students, job_id)]; [uuid4] is the
    string [str(uuid.uuid4())] would produce. *)
Definition generate_job_requests (uuid4 : string)
    (qualified_students : list dict) (job_id : option string)
  : result (list JobRequest) :=
  match qualified_students with
  | [] => Ok []
  | _ =>
      let job_id :=
        match job_id with
        | Some j => if String.eqb j "" then uuid4 else j
        | None => uuid4
        end in
      request_loop job_id qualified_students
  end.

(** What a [GeminiProvider] offers to [process_job_profile]: its key, and
    [extract_keywords], which catches its own failures and returns either
    a validated [(job_role, keywords, mandatory_keywords)] or nothing. *)
Record GeminiProvider : Type := {
  api_key : option string;
  extract_keywords : string -> option (string * list string * list string)
}.

Definition has_key (provider : GeminiProvider) : bool :=
  match api_key provider with
  | Some k => negb (String.eqb k "")
  | None => false
  end.

Record JobOutput : Type := {
  job_role : string;
  keywords : list string;
  general_ranking : list RankingEntry;
  job_specific_ranking : list RankingEntry;
  job_requests : list JobRequest;
  warnings : list string;
  errors : list string
}.

Definition _get_default_output (warnings errors : list string) : JobOutput := {|
  job_role := "Unknown";
  keywords := [];
  general_ranking := [];
  job_specific_ranking := [];
  job_requests := [];
  warnings := warnings;
  errors := errors
|}.

(** The record appended to [qualified_students_raw]. *)
Definition qualified_record (student_id : Z) (m : MatchResult) (general_score : Q)
  : dict :=
  list_to_map [
    ("student_id", VInt student_id);
    ("keyword_match_pct", VFloat (Fin (match_pct m)));
    ("general_score", VFloat (Fin general_score));
    ("matched_keywords", VList (VStr <$> Matcher.matched_keywords m));
    ("unmatched_keywords", VList (VStr <$> Matcher.unmatched_keywords m))
  ].

(** The loop over [students] in [process_job_profile]. *)
Fixpoint qualify (students : list dict) (keywords mandatory_keywords : list string)
  : result (list dict) :=
  match students with
  | [] => Ok []
  | student :: rest =>
      if bool_decide (student = ∅) then qualify rest keywords mandatory_keywords else
      result_bind (Scoring.safe_int (get student "student_id") None) (fun student_id =>
      match student_id with
      | None => qualify rest keywords mandatory_keywords
      | Some student_id =>
          match calculate_keyword_match student keywords mandatory_keywords with
          | None => qualify rest keywords mandatory_keywords
          | Some match_result =>
              result_bind (is_qualified (match_dict match_result) 0.75) (fun q =>
              if truthy q then
                result_bind (float_field student "general_score") (fun general_score =>
                result_bind (qualify rest keywords mandatory_keywords) (fun raw =>
                Ok (qualified_record student_id match_result general_score :: raw)))
              else qualify rest keywords mandatory_keywords)
          end
      end)
  end.

(** The [try] block of [process_job_profile], after the two guards on
    its arguments. *)
Definition process_job_profile_try (provider : GeminiProvider) (uuid4 : string)
    (job_description : string) (students : list dict) : result JobOutput :=
  let failed :=
    _get_default_output [] ["Job keyword extraction failed. Manual keywords required."] in
  if negb (has_key provider) then Ok failed else
  match extract_keywords provider job_description with
  | None => Ok failed
  | Some (job_role, raw_keywords, raw_mandatory) =>
      let keywords := Keywords.normalize_keywords raw_keywords 25 in
      let mandatory_keywords := Keywords.normalize_keywords raw_mandatory 10 in
      match keywords with
      | [] => Ok failed
      | _ =>
          result_bind (qualify students keywords mandatory_keywords)
            (fun qualified_students_raw =>
          let (ranked, qualified_students_raw) := rank_students qualified_students_raw in
          result_bind ranked (fun ranked_data =>
          result_bind (generate_job_requests uuid4 qualified_students_raw (Some uuid4))
            (fun job_requests =>
          Ok {| job_role := job_role;
                keywords := keywords;
                general_ranking := Ranker.general_ranking ranked_data;
                job_specific_ranking := Ranker.job_specific_ranking ranked_data;
                job_requests := job_requests;
                warnings := [];
                errors := [] |})))
      end
  end.

(** [process_job_profile(job_description, students, gemini_api_key)];
    the provider stands for [GeminiProvider(api_key=gemini_api_key)]. *)
Definition process_job_profile (provider : GeminiProvider) (uuid4 : string)
    (job_description : string) (students : list dict) : JobOutput :=
  if String.eqb job_description "" then
    _get_default_output [] ["job_description must be a non-empty string"]
  else
    match students with
    | [] => _get_default_output ["students list is empty or invalid"] []
    | _ =>
        match process_job_profile_try provider uuid4 job_description students with
        | Ok out => out
        | Raise e =>
            _get_default_output []
              ["Critical error in process_job_profile: " +:+ exn_str e]
        end
    end.

End WithBuiltins.
End JobProfile.

Module MatcherSpec.
Section WithBuiltins.
Context `{Builtins}.
Import Matcher.

(** The set [all_student_keywords] that [calculate_keyword_match] builds
    from the candidate's skills, tags and languages. *)
Definition student_keywords (student : dict) : gset string :=
  list_to_set
    (normalize_student_field (get_or student "skills" (VList []))
     ++ normalize_student_field (get_or student "tags" (VList []))
     ++ normalize_student_field (get_or student "languages" (VList []))).

End WithBuiltins.
End MatcherSpec.

Module JobProfileSpec.
Section WithBuiltins.
Context `{Builtins}.
Local Open Scope Q_scope.
Import Ranker RankerSpec JobProfile.

(** What the two views and the requests of one output have in common:
    [n] ranked candidates, numbered [1 .. n] in both views, all at or
    above the threshold, one pending request each. *)
Definition well_ranked (uuid4 : string) (out : JobOutput) : Prop :=
  let n := length (job_requests out) in
  map rank (JobProfile.general_ranking out) = seq 1 n
  /\ map rank (JobProfile.job_specific_ranking out) = seq 1 n
  /\ map unranked (JobProfile.general_ranking out)
     ≡ₚ map unranked (JobProfile.job_specific_ranking out)
  /\ descending general_score (JobProfile.general_ranking out)
  /\ descending keyword_match_pct (JobProfile.job_specific_ranking out)
  /\ Forall (fun e => 0.75 <= keyword_match_pct e) (JobProfile.general_ranking out)
  /\ Forall (fun q => status q = "PENDING" /\ job_id q = uuid4) (job_requests out).

End WithBuiltins.
End JobProfileSpec.

(* ================================================================== *)
(** * hpps_improvements.py on arbitrary floats *)
(* ================================================================== *)

(** The functions of [hpps_improvements.py] do not filter NaN and the
    infinities, so they are modelled on [fl].  [Improvements] above holds
    the same normalisers restricted to finite numbers. *)
Module Improved.
Import Improvements.

(** Comparisons of floats: every comparison with NaN is false. *)
Definition fl_lt (a b : fl) : bool :=
  match a, b with
  | NaN, _ | _, NaN => false
  | Fin x, Fin y => Qltb x y
  | Fin _, Inf negative => negb negative
  | Inf negative, Fin _ => negative
  | Inf n1, Inf n2 => n1 && negb n2
  end.

Definition fl_le (a b : fl) : bool :=
  match a, b with
  | NaN, _ | _, NaN => false
  | Fin x, Fin y => Qle_bool x y
  | Fin _, Inf negative => negb negative
  | Inf negative, Fin _ => negative
  | Inf n1, Inf n2 => n1 || negb n2
  end.

(** [q * x] for a finite [q]; zero times an infinity is NaN. *)
Definition fl_scale (q : Q) (x : fl) : fl :=
  match x with
  | Fin v => Fin (q * v)
  | Inf negative =>
      if Qeq_bool q 0 then NaN
      else Inf (if Qltb q 0 then negb negative else negative)
  | NaN => NaN
  end.

(** [(value - min_val) / d] for finite [min_val] and a finite non-zero [d]. *)
Definition fl_rescale (value : fl) (min_val d : Q) : fl :=
  match value with
  | Fin v => Fin ((v - min_val) / d)
  | Inf negative => Inf (if Qltb d 0 then negb negative else negative)
  | NaN => NaN
  end.

(** [max(0.0, min(1.0, x))]: [min] keeps 1.0 unless [x < 1.0], [max]
    keeps 0.0 unless the result is greater, so NaN comes out as 1.0. *)
Definition fl_clamp01 (x : fl) : Q :=
  match x with
  | Fin q => clamp01 q
  | Inf negative => if negative then 0 else 1
  | NaN => 1
  end.

(** [float(v)] where this file calls it: after the [isinstance(v, (int,
    float))] test, so on an [int] or a [float] (a [bool] is an [int]). *)
Definition to_float (v : pyval) : result fl :=
  match v with
  | VBool b => Ok (Fin (if b then 1 else 0))
  | VInt z => if int_too_large z then Raise OverflowError else Ok (Fin (inject_Z z))
  | VFloat f => Ok f
  | _ => Raise TypeError
  end.

Definition is_number (v : pyval) : bool :=
  match v with
  | VBool _ | VInt _ | VFloat _ => true
  | _ => false
  end.

Section WithBuiltins.
Context `{Builtins}.
Local Open Scope Q_scope.

(** [validate_ratio(ratio, name)] *)
Definition validate_ratio (ratio : pyval) (name : string) : M (option fl) :=
  match ratio with
  | VNone => ret None
  | _ =>
      if negb (is_number ratio) then lift (Raise ValidationError) else
      ratio ← lift (to_float ratio);
      if fl_lt ratio (Fin 0) then
        warn (name +:+ " is negative (" +:+ py_str (VFloat ratio) +:+ "), clamping to 0") ;;
        ret (Some (Fin 0))
      else if fl_lt (Fin 1) ratio then
        warn (name +:+ " > 1.0 (" +:+ py_str (VFloat ratio) +:+ "), clamping to 1.0") ;;
        ret (Some (Fin 1))
      else ret (Some ratio)
  end.

(** [validate_non_negative_count(count, name)]: a [float] stays a
    [float], an [int] an [int]. *)
Definition validate_non_negative_count (count : pyval) (name : string)
  : M (option pyval) :=
  match count with
  | VNone => ret None
  | VBool b => ret (Some (VInt (if b then 1 else 0)))
  | VInt z =>
      if (z <? 0)%Z then
        warn (name +:+ " is negative (" +:+ py_str count +:+ "), clamping to 0") ;;
        ret (Some (VInt 0))
      else ret (Some (VInt z))
  | VFloat f =>
      if fl_lt f (Fin 0) then
        warn (name +:+ " is negative (" +:+ py_str count +:+ "), clamping to 0") ;;
        ret (Some (VInt 0))
      else ret (Some (VFloat f))
  | _ => lift (Raise ValidationError)
  end.

(** [validate_ai_score(score, name)] *)
Definition validate_ai_score (score : pyval) (name : string) : M (option fl) :=
  match score with
  | VNone => ret None
  | _ =>
      if negb (is_number score) then lift (Raise ValidationError) else
      score ← lift (to_float score);
      if fl_lt score (Fin 0) then
        warn (name +:+ " is negative (" +:+ py_str (VFloat score) +:+ "), clamping to 0") ;;
        ret (Some (Fin 0))
      else
        (if fl_lt (Fin 100) score then
           warn (name +:+ " > 100 (" +:+ py_str (VFloat score) +:+ "), assuming 0-100 scale")
         else ret tt) ;;
        ret (Some score)
  end.

(** [norm(value, min_val, max_val)] *)
Definition norm (value : fl) (min_val max_val : Q) : result Q :=
  if Qeq_bool max_val min_val then Raise ValueError
  else Ok (fl_clamp01 (fl_rescale value min_val (max_val - min_val))).

Definition norm_percentile (percentile_value : fl) : result Q :=
  norm percentile_value 0 100.

Definition norm_ratio (ratio_value : fl) : result Q := Ok (fl_clamp01 ratio_value).

(** [norm_count(count_value, max_count)]: both arguments go through
    [float]. *)
Definition norm_count (count_value : pyval) (max_count : Z) : result Q :=
  result_bind (to_float count_value) (fun v =>
  result_bind (to_float (VInt max_count)) (fun m =>
  match m with
  | Fin m => norm v 0 m
  | _ => Raise TypeError
  end)).

(** [normalize_ai_score(value, config, explicit_scale)] *)
Definition normalize_ai_score (value : fl) (config : HPPSConfig)
    (explicit_scale : option string) : result Q :=
  let explicit_scale :=
    match explicit_scale with
    | None => if fl_lt (Fin (ai_scale_threshold config)) value then "0-100" else "0-1"
    | Some s => s
    end in
  if String.eqb explicit_scale "0-1" then norm_ratio value
  else norm_percentile value.

(** [rating >= c] *)
Definition at_least (rating : fl) (c : Q) : bool := fl_le (Fin c) rating.

(** [cf_percentile_improved(codeforces_rating)] on a float. *)
Definition cf_percentile_improved (codeforces_rating : fl) : result Q :=
  if fl_lt codeforces_rating (Fin 0) then Raise ValidationError
  else Ok
    (if at_least codeforces_rating 3000 then 99.93
     else if at_least codeforces_rating 2400 then 99.2
     else if at_least codeforces_rating 2100 then 97
     else if at_least codeforces_rating 1900 then 94
     else if at_least codeforces_rating 1600 then 85
     else if at_least codeforces_rating 1400 then 73
     else if at_least codeforces_rating 1200 then 55
     else if at_least codeforces_rating 1000 then 33
     else if at_least codeforces_rating 800 then 11
     else 5).

(** [lc_percentile_improved(leetcode_rating)] on a float. *)
Definition lc_percentile_improved (leetcode_rating : fl) : result Q :=
  if fl_lt leetcode_rating (Fin 0) then Raise ValidationError
  else Ok
    (if at_least leetcode_rating 2500 then 97.63
     else if at_least leetcode_rating 2200 then 91.19
     else if at_least leetcode_rating 2000 then 79.98
     else if at_least leetcode_rating 1850 then 63.77
     else if at_least leetcode_rating 1750 then 49.98
     else if at_least leetcode_rating 1600 then 27.35
     else if at_least leetcode_rating 1500 then 15.09
     else if at_least leetcode_rating 1400 then 6.66
     else if at_least leetcode_rating 1200 then 0.83
     else if at_least leetcode_rating 1000 then 0.4
     else 0.1).

(** [calculate_AD_improved(CF_rating, LC_rating, CF_hard_problem_ratio,
    LC_medium_hard_ratio, config)] *)
Definition calculate_AD_improved
    (CF_rating LC_rating CF_hard_problem_ratio LC_medium_hard_ratio : pyval)
    (config : HPPSConfig) : M Q :=
  CF_rating ← Improvements.validate_rating CF_rating "codeforces";
  LC_rating ← Improvements.validate_rating LC_rating "leetcode";
  CF_hard_problem_ratio ← validate_ratio CF_hard_problem_ratio "CF_hard_problem_ratio";
  LC_medium_hard_ratio ← validate_ratio LC_medium_hard_ratio "LC_medium_hard_ratio";
  best_percent ← lift
    match CF_rating, LC_rating with
    | Some cf, Some lc =>
        if fl_le (fl_scale (rating_selection_ratio config) lc) cf
        then cf_percentile_improved cf
        else lc_percentile_improved lc
    | Some cf, None => cf_percentile_improved cf
    | None, Some lc => lc_percentile_improved lc
    | None, None => Ok 0
    end;
  norm_best_rating ← lift (norm_percentile (Fin best_percent));
  norm_cf_hard ← lift
    match CF_hard_problem_ratio with
    | Some r => norm_ratio r
    | None => Ok 0
    end;
  norm_lc_medium_hard ← lift
    match LC_medium_hard_ratio with
    | Some r => norm_ratio r
    | None => Ok 0
    end;
  let AD := 0.6 * norm_best_rating + 0.25 * norm_cf_hard + 0.15 * norm_lc_medium_hard in
  ret (clamp01 AD).

(** [x or default]: [None], [0] and [0.0] are replaced by the default. *)
Definition count_or (x : option pyval) (dflt : pyval) : pyval :=
  match x with
  | Some v => if truthy v then v else dflt
  | None => dflt
  end.

Definition score_or (x : option fl) (dflt : Q) : fl :=
  match x with
  | Some f => if truthy (VFloat f) then f else Fin dflt
  | None => Fin dflt
  end.

(** [calculate_EAP_improved(real_projects_count, project_complexity_score,
    stack_diversity, code_quality_indicators, config)] *)
Definition calculate_EAP_improved
    (real_projects_count project_complexity_score stack_diversity
     code_quality_indicators : pyval) (config : HPPSConfig) : M Q :=
  c ← validate_non_negative_count real_projects_count "real_projects_count";
  let real_projects_count := count_or c (VInt 0) in
  s ← validate_ai_score project_complexity_score "project_complexity_score";
  let project_complexity_score := score_or s (default_ai_score config) in
  s ← validate_ai_score stack_diversity "stack_diversity";
  let stack_diversity := score_or s (default_ai_score config) in
  s ← validate_ai_score code_quality_indicators "code_quality_indicators";
  let code_quality_indicators := score_or s (default_ai_score config) in
  norm_projects ← lift (norm_count real_projects_count (max_projects config));
  norm_complexity ← lift (normalize_ai_score project_complexity_score config None);
  norm_stack ← lift (normalize_ai_score stack_diversity config None);
  norm_quality ← lift (normalize_ai_score code_quality_indicators config None);
  let EAP := 0.4 * norm_projects + 0.25 * norm_complexity
             + 0.2 * norm_stack + 0.15 * norm_quality in
  ret (clamp01 EAP).

End WithBuiltins.

(** [sanity_check_result(result)]: [true] when the four assertions hold
    and the function returns [True], [false] when one of them fails. *)
Definition sanity_check_result (result : Scoring.CompositeScore) : bool :=
  let within (x : Q) := Qle_bool 0 x && Qle_bool x 1 in
  within (Scoring.HPPS result)
  && (within (Scoring.AD result) && within (Scoring.EAP result)
      && within (Scoring.CCL result) && within (Scoring.LA result))
  && (Qltb 0 (Scoring.penalty_multiplier result)
      && Qle_bool (Scoring.penalty_multiplier result) 1)
  && within (Scoring.base_HPPS result).

End Improved.

(* ================================================================== *)
(** * Arithmetic of comparisons and clamping *)
(* ================================================================== *)

Section Arithmetic.
Local Open Scope Q_scope.

Lemma Qltb_lt (x y : Q) : Qltb x y = true <-> x < y.
Proof.
  unfold Qltb. rewrite negb_true_iff, <- not_true_iff_false, Qle_bool_iff.
  split; [apply Qnot_le_lt | apply Qlt_not_le].
Qed.

Lemma Qltb_ge (x y : Q) : Qltb x y = false <-> y <= x.
Proof. unfold Qltb. now rewrite negb_false_iff, Qle_bool_iff. Qed.

Lemma Qltb_spec (x y : Q) : reflect (x < y) (Qltb x y).
Proof.
  destruct (Qltb x y) eqn:E; constructor.
  - now apply Qltb_lt.
  - apply Qltb_ge in E. now apply Qle_not_lt.
Qed.

Lemma py_min_cases (a b : Q) :
  (b < a /\ py_min a b = b) \/ (a <= b /\ py_min a b = a).
Proof.
  unfold py_min. destruct (Qltb b a) eqn:E.
  - left. now apply Qltb_lt in E.
  - right. now apply Qltb_ge in E.
Qed.

Lemma py_max_cases (a b : Q) :
  (a < b /\ py_max a b = b) \/ (b <= a /\ py_max a b = a).
Proof.
  unfold py_max. destruct (Qltb a b) eqn:E.
  - left. now apply Qltb_lt in E.
  - right. now apply Qltb_ge in E.
Qed.

Lemma py_min3_is_min (a b c : Q) : py_min3 a b c == Qmin a (Qmin b c).
Proof.
  unfold py_min3.
  destruct (py_min_cases a b) as [[? ->] | [? ->]];
    [destruct (py_min_cases b c) as [[? ->] | [? ->]]
    |destruct (py_min_cases a c) as [[? ->] | [? ->]]];
    destruct (Q.min_spec b c) as [[? Hbc] | [? Hbc]];
    destruct (Q.min_spec a (Qmin b c)) as [[? Ha] | [? Ha]];
    rewrite Ha; rewrite ?Hbc in *; lra.
Qed.

Lemma clamp_bounds (lo hi x : Q) : lo <= hi -> lo <= clamp lo hi x <= hi.
Proof.
  intros Hle. unfold clamp.
  destruct (py_min_cases hi x) as [[? ->] | [? ->]];
    [destruct (py_max_cases lo x) as [[? ->] | [? ->]]
    |destruct (py_max_cases lo hi) as [[? ->] | [? ->]]]; lra.
Qed.

Lemma clamp01_bounds (x : Q) : 0 <= clamp01 x <= 1.
Proof. apply clamp_bounds. lra. Qed.

Lemma clamp_inside (lo hi x : Q) : lo <= x <= hi -> clamp lo hi x == x.
Proof.
  intros [? ?]. unfold clamp.
  destruct (py_min_cases hi x) as [[? ->] | [? ->]];
    [destruct (py_max_cases lo x) as [[? ->] | [? ->]]
    |destruct (py_max_cases lo hi) as [[? ->] | [? ->]]]; lra.
Qed.

(** Scaling commutes with clamping: the percentage is a hundred times
    the clamped score. *)
Lemma clamp_percentage (x : Q) : clamp 0 100 (x * 100) == clamp01 x * 100.
Proof.
  unfold clamp01, clamp.
  destruct (py_min_cases 100 (x * 100)) as [[? ->] | [? ->]];
    destruct (py_min_cases 1 x) as [[? ->] | [? ->]]; try lra.
  - destruct (py_max_cases 0 (x * 100)) as [[? ->] | [? ->]];
      destruct (py_max_cases 0 x) as [[? ->] | [? ->]]; lra.
  - destruct (py_max_cases 0 100) as [[? ->] | [? ->]];
      destruct (py_max_cases 0 1) as [[? ->] | [? ->]]; lra.
Qed.

Lemma div_by_04 (x : Q) : x / 0.4 == x * 2.5.
Proof. field. Qed.

End Arithmetic.

(* ================================================================== *)
(** * Reasoning about the warnings monad *)
(* ================================================================== *)

Section MonadFacts.
Context {A B : Type}.

Lemma bind_ok (m : M A) (k : A -> M B) w a w1 :
  m w = (Ok a, w1) -> bind m k w = k a w1.
Proof. unfold bind. now intros ->. Qed.

Lemma bind_raise (m : M A) (k : A -> M B) w e w1 :
  m w = (Raise e, w1) -> bind m k w = (Raise e, w1).
Proof. unfold bind. now intros ->. Qed.

Lemma try_except_ok (m : M A) (h : exn -> M A) w a w1 :
  m w = (Ok a, w1) -> try_except m h w = (Ok a, w1).
Proof. unfold try_except. now intros ->. Qed.

Lemma try_except_raise (m : M A) (h : exn -> M A) w e w1 :
  m w = (Raise e, w1) -> try_except m h w = h e w1.
Proof. unfold try_except. now intros ->. Qed.

(** A handler that records one message and returns a fixed value. *)
Lemma handler_run (msg : string) (d : A) w :
  (warn msg ;; ret d) w = (Ok d, w ++ [msg]).
Proof. reflexivity. Qed.

End MonadFacts.

Lemma ok_post_ret {A} (P : A -> Prop) (a : A) : P a -> ok_post P (ret a).
Proof. intros HP w a' w1 [= <- _]. exact HP. Qed.

Lemma ok_post_bind {A B} (P : B -> Prop) (m : M A) (k : A -> M B) :
  (forall a, ok_post P (k a)) -> ok_post P (bind m k).
Proof.
  intros Hk w b w1. unfold bind.
  destruct (m w) as [[a | e] w0]; [apply Hk | discriminate].
Qed.

Ltac post_steps :=
  repeat (first [apply ok_post_bind; intros ? | progress cbv zeta]).

(* ================================================================== *)
(** * The scoring engine *)
(* ================================================================== *)

Section ScoringFacts.
Context `{Builtins}.
Local Open Scope Q_scope.
Import Scoring ScoringSpec.

Lemma calculate_AD_try_range a b c d :
  ok_post (fun v => 0 <= v <= 1) (calculate_AD_try a b c d).
Proof. unfold calculate_AD_try. post_steps. apply ok_post_ret, clamp01_bounds. Qed.

Lemma calculate_EAP_try_range a b c d :
  ok_post (fun v => 0 <= v <= 1) (calculate_EAP_try a b c d).
Proof. unfold calculate_EAP_try. post_steps. apply ok_post_ret, clamp01_bounds. Qed.

Lemma calculate_CCL_try_range a b c d :
  ok_post (fun v => 0 <= v <= 1) (calculate_CCL_try a b c d).
Proof. unfold calculate_CCL_try. post_steps. apply ok_post_ret, clamp01_bounds. Qed.

Lemma calculate_LA_try_range a b c d :
  ok_post (fun v => 0 <= v <= 1) (calculate_LA_try a b c d).
Proof. unfold calculate_LA_try. post_steps. apply ok_post_ret, clamp01_bounds. Qed.

(** A calculator built as [try body except: warn; return 0.5] returns from
    every state, and within [[0,1]] when its body does. *)
Lemma guarded_returns (body : M Q) (msg : exn -> string) w :
  ok_post (fun v => 0 <= v <= 1) body ->
  exists v w1,
    try_except body (fun e => warn (msg e) ;; ret 0.5) w = (Ok v, w1)
    /\ 0 <= v <= 1.
Proof.
  intros Hbody. destruct (body w) as [[a | e] w0] eqn:E.
  - exists a, w0. split; [now apply try_except_ok | now apply (Hbody w a w0)].
  - exists 0.5, (w0 ++ [msg e]). split; [|lra].
    now rewrite (try_except_raise _ _ _ _ _ E).
Qed.

Lemma calculate_AD_returns a b c d w :
  exists v w1, calculate_AD a b c d w = (Ok v, w1) /\ 0 <= v <= 1.
Proof. apply guarded_returns, calculate_AD_try_range. Qed.

Lemma calculate_EAP_returns a b c d w :
  exists v w1, calculate_EAP a b c d w = (Ok v, w1) /\ 0 <= v <= 1.
Proof. apply guarded_returns, calculate_EAP_try_range. Qed.

Lemma calculate_CCL_returns a b c d w :
  exists v w1, calculate_CCL a b c d w = (Ok v, w1) /\ 0 <= v <= 1.
Proof. apply guarded_returns, calculate_CCL_try_range. Qed.

Lemma calculate_LA_returns a b c d w :
  exists v w1, calculate_LA a b c d w = (Ok v, w1) /\ 0 <= v <= 1.
Proof. apply guarded_returns, calculate_LA_try_range. Qed.

Lemma penalty_returns ad eap ccl pmin pmax log w :
  exists w1,
    apply_min_dominance_penalty ad eap ccl pmin pmax log w
    = (Ok (multiplier ad eap ccl pmin pmax), w1).
Proof.
  unfold apply_min_dominance_penalty, multiplier, try_except.
  destruct (Qltb (py_min3 ad eap ccl) 0.4); destruct log; cbn; eauto.
Qed.

Lemma multiplier_range ad eap ccl :
  0 <= ad -> 0 <= eap -> 0 <= ccl ->
  0.5 <= multiplier ad eap ccl 0.3 0.5 <= 1.
Proof.
  intros Ha He Hc. unfold multiplier.
  assert (Hm : 0 <= py_min3 ad eap ccl).
  { unfold py_min3.
    destruct (py_min_cases ad eap) as [[? ->] | [? ->]];
      [destruct (py_min_cases eap ccl) as [[? ->] | [? ->]]
      |destruct (py_min_cases ad ccl) as [[? ->] | [? ->]]]; lra. }
  destruct (Qltb_spec (py_min3 ad eap ccl) 0.4) as [Hlt | Hge]; [|lra].
  rewrite div_by_04. lra.
Qed.

(** The [try] block of [calculate_HPPS] completes on every input, with
    sub-scores in range. *)
Lemma calculate_HPPS_try_returns (s : Signals) :
  exists ad eap ccl la w,
    (0 <= ad <= 1) /\ (0 <= eap <= 1) /\ (0 <= ccl <= 1) /\ (0 <= la <= 1)
    /\ calculate_HPPS_try s [] = (Ok (assembled ad eap ccl la), w).
Proof.
  unfold calculate_HPPS_try.
  destruct (calculate_AD_returns (CF_rating s) (LC_rating s)
              (CF_hard_problem_ratio s) (LC_medium_hard_ratio s) [])
    as (ad & w1 & E1 & Had).
  destruct (calculate_EAP_returns (real_projects_count s) (project_complexity_score s)
              (stack_diversity s) (code_quality_indicators s) w1)
    as (eap & w2 & E2 & Heap).
  destruct (calculate_CCL_returns (active_months s) (activity_frequency s)
              (rating_stability s) (longest_streak s) w2)
    as (ccl & w3 & E3 & Hccl).
  destruct (calculate_LA_returns (new_tech_usage s) (reusable_components s)
              (oss_engagement s) (cross_domain_work s) w3)
    as (la & w4 & E4 & Hla).
  destruct (penalty_returns ad eap ccl 0.3 0.5 true w4) as (w5 & E5).
  exists ad, eap, ccl, la, w5. repeat (split; [assumption|]).
  unfold mbind, M_bind.
  rewrite (bind_ok _ _ _ _ _ E1), (bind_ok _ _ _ _ _ E2),
    (bind_ok _ _ _ _ _ E3), (bind_ok _ _ _ _ _ E4), (bind_ok _ _ _ _ _ E5).
  reflexivity.
Qed.

Lemma calculate_HPPS_shape (s : Signals) :
  exists ad eap ccl la w,
    (0 <= ad <= 1) /\ (0 <= eap <= 1) /\ (0 <= ccl <= 1) /\ (0 <= la <= 1)
    /\ calculate_HPPS s = with_lists (assembled ad eap ccl la) w [].
Proof.
  destruct (calculate_HPPS_try_returns s) as (ad & eap & ccl & la & w & ? & ? & ? & ? & E).
  exists ad, eap, ccl, la, w. repeat (split; [assumption|]).
  unfold calculate_HPPS. now rewrite E.
Qed.

End ScoringFacts.

Section ScoringClaims.
Context `{Builtins}.
Local Open Scope Q_scope.
Import Scoring ScoringSpec.

(** C1 (amended).  On every input [calculate_HPPS] returns a
    [CompositeScore]: its [try] block runs to completion, so the
    dictionary returned is the computed one and [errors] is empty.  A
    fault inside a sub-score calculator is caught by that calculator,
    which returns the neutral 0.5 and appends a warning; the all-zero
    dictionary with an [errors] entry is what the aggregator's own
    handler returns for a fault that reaches it. *)
Theorem calculate_HPPS_absorbs_faults (s : Signals) :
  (exists c w,
      calculate_HPPS_try s [] = (Ok c, w) /\ calculate_HPPS s = with_lists c w [])
  /\ errors (calculate_HPPS s) = []
  /\ (forall w e w1,
        calculate_AD_try (CF_rating s) (LC_rating s)
          (CF_hard_problem_ratio s) (LC_medium_hard_ratio s) w = (Raise e, w1) ->
        calculate_AD (CF_rating s) (LC_rating s)
          (CF_hard_problem_ratio s) (LC_medium_hard_ratio s) w
        = (Ok 0.5, w1 ++ ["Error in calculate_AD: " +:+ exn_str e]))
  /\ (forall w e w1,
        calculate_EAP_try (real_projects_count s) (project_complexity_score s)
          (stack_diversity s) (code_quality_indicators s) w = (Raise e, w1) ->
        calculate_EAP (real_projects_count s) (project_complexity_score s)
          (stack_diversity s) (code_quality_indicators s) w
        = (Ok 0.5, w1 ++ ["Error in calculate_EAP: " +:+ exn_str e]))
  /\ (forall w e w1,
        calculate_CCL_try (active_months s) (activity_frequency s)
          (rating_stability s) (longest_streak s) w = (Raise e, w1) ->
        calculate_CCL (active_months s) (activity_frequency s)
          (rating_stability s) (longest_streak s) w
        = (Ok 0.5, w1 ++ ["Error in calculate_CCL: " +:+ exn_str e]))
  /\ (forall w e w1,
        calculate_LA_try (new_tech_usage s) (reusable_components s)
          (oss_engagement s) (cross_domain_work s) w = (Raise e, w1) ->
        calculate_LA (new_tech_usage s) (reusable_components s)
          (oss_engagement s) (cross_domain_work s) w
        = (Ok 0.5, w1 ++ ["Error in calculate_LA: " +:+ exn_str e]))
  /\ (forall e w,
        calculate_HPPS_finish (Raise e, w)
        = zero_score w ["Critical error in calculate_HPPS: " +:+ exn_str e]).
Proof.
  destruct (calculate_HPPS_try_returns s)
    as (ad & eap & ccl & la & w & _ & _ & _ & _ & E).
  split; [|split].
  - exists (assembled ad eap ccl la), w. split; [exact E|].
    unfold calculate_HPPS. now rewrite E.
  - unfold calculate_HPPS. now rewrite E.
  - unfold calculate_AD, calculate_EAP, calculate_CCL, calculate_LA.
    repeat split; intros;
      try (erewrite try_except_raise by eassumption; apply handler_run).
Qed.

(** C2.  With [m = min(AD, EAP, CCL)] the multiplier that
    [apply_min_dominance_penalty] returns is 1 when [m >= 0.4] and
    [1 - (0.3 + 0.2 * (0.4 - m) / 0.4)] when [m < 0.4]; so it is 1 at
    [m = 0.4], 0.5 at [m = 0] and 0.675 at [m = 0.35]. *)
Theorem penalty_interpolation (ad eap ccl : Q) (log : bool) (w : list string) :
  0 <= ad <= 1 -> 0 <= eap <= 1 -> 0 <= ccl <= 1 ->
  let m := Qmin ad (Qmin eap ccl) in
  exists v w1,
    apply_min_dominance_penalty ad eap ccl 0.3 0.5 log w = (Ok v, w1)
    /\ (0.4 <= m -> v == 1)
    /\ (m < 0.4 -> v == 1 - (0.3 + 0.2 * (0.4 - m) / 0.4))
    /\ (m == 0.4 -> v == 1)
    /\ (m == 0 -> v == 0.5)
    /\ (m == 0.35 -> v == 0.675).
Proof.
  intros _ _ _ m.
  destruct (penalty_returns ad eap ccl 0.3 0.5 log w) as (w1 & E).
  exists (multiplier ad eap ccl 0.3 0.5), w1. split; [exact E|].
  assert (Hm : py_min3 ad eap ccl == m) by apply py_min3_is_min.
  unfold multiplier.
  destruct (Qltb_spec (py_min3 ad eap ccl) 0.4) as [Hlt | Hge];
    rewrite ?div_by_04; repeat split; intros; lra.
Qed.

(** C3.  On every input each of [AD], [EAP], [CCL], [LA], [base_HPPS]
    and [HPPS] returned by [calculate_HPPS] lies in [[0,1]],
    [HPPS_percentage] lies in [[0,100]] and [penalty_multiplier] in
    [(0,1]]. *)
Theorem calculate_HPPS_bounds (s : Signals) :
  let r := calculate_HPPS s in
  (0 <= AD r <= 1) /\ (0 <= EAP r <= 1) /\ (0 <= CCL r <= 1) /\ (0 <= LA r <= 1)
  /\ (0 <= base_HPPS r <= 1) /\ (0 <= HPPS r <= 1)
  /\ (0 <= HPPS_percentage r <= 100)
  /\ (0 < penalty_multiplier r <= 1).
Proof.
  destruct (calculate_HPPS_shape s)
    as (ad & eap & ccl & la & w & Had & Heap & Hccl & Hla & ->).
  cbn. repeat split; try apply clamp01_bounds; try (apply clamp_bounds; lra);
    pose proof (multiplier_range ad eap ccl); lra.
Qed.

(** C4.  Every dictionary [calculate_HPPS] returns, and the dictionary of
    its error path, has [HPPS_percentage == HPPS * 100] and
    [penalty_applied == (penalty_multiplier < 1.0)]. *)
Theorem calculate_HPPS_consistent (s : Signals) :
  consistent (calculate_HPPS s)
  /\ forall e w, consistent (calculate_HPPS_finish (Raise e, w)).
Proof.
  split.
  - destruct (calculate_HPPS_shape s) as (ad & eap & ccl & la & w & _ & _ & _ & _ & ->).
    split; cbn; [apply clamp_percentage | apply Qltb_lt].
  - intros e w. split; cbn; [lra | split; [discriminate | lra]].
Qed.

(** C7 (amended).  [validate_rating] of [function.py], the one the
    pipeline calls: a negative number is treated as missing, the result
    is [None] and one warning is appended; a missing or unparseable value
    gives [None] and no warning; a non-negative number is returned. *)
Theorem validate_rating_negative_is_missing (value : pyval) (name : string)
    (w : list string) :
  (forall n, safe_float value None = Ok (Some n) -> n < 0 ->
     validate_rating value name w
     = (Ok None,
        w ++ [name +:+ " negative (" +:+ py_str value +:+ "), treating as missing"]))
  /\ (safe_float value None = Ok None -> validate_rating value name w = (Ok None, w))
  /\ (forall n, safe_float value None = Ok (Some n) -> 0 <= n ->
        validate_rating value name w = (Ok (Some n), w)).
Proof.
  unfold validate_rating, mbind, M_bind, bind, lift.
  repeat split.
  - intros n -> Hn. apply Qltb_lt in Hn. now rewrite Hn.
  - now intros ->.
  - intros n -> Hn. apply Qltb_ge in Hn. now rewrite Hn.
Qed.

(** C10.  [normalize_ai_score] is not monotonic across the threshold:
    every input in [(1, 10]] goes to 1, 10 goes to 1 and 11 to 0.11, so
    some [a < b] have [normalize_ai_score a > normalize_ai_score b].  The
    function of [hpps_improvements.py] agrees on these inputs. *)
Theorem normalize_ai_score_not_monotonic :
  (forall v, 1 < v <= 10 -> normalize_ai_score v == 1)
  /\ normalize_ai_score 10 == 1
  /\ normalize_ai_score 11 == 0.11
  /\ (exists a b, a < b /\ normalize_ai_score b < normalize_ai_score a)
  /\ (forall v, 1 < v <= 10 ->
        Improvements.normalize_ai_score v Improvements.default_config None = Ok 1)
  /\ (exists q, Improvements.normalize_ai_score 11 Improvements.default_config None
                = Ok q /\ q == 0.11).
Proof.
  assert (Hone : forall v, 1 < v <= 10 -> normalize_ai_score v = 1).
  { intros v [Hlo Hhi]. unfold normalize_ai_score, normalize_ai_score_at.
    apply Qltb_ge in Hhi. rewrite Hhi.
    unfold norm_ratio, clamp01, clamp, py_min, py_max.
    assert (E : Qltb v 1 = false) by (apply Qltb_ge; lra).
    now rewrite E. }
  split; [intros v Hv; now rewrite Hone|].
  split; [reflexivity|]. split; [reflexivity|].
  split; [exists 10, 11; split; reflexivity|].
  split.
  - intros v Hv. specialize (Hone v Hv). destruct Hv as [Hlo Hhi].
    unfold Improvements.normalize_ai_score. cbn [Improvements.ai_scale_threshold
      Improvements.default_config].
    apply Qltb_ge in Hhi. rewrite Hhi. cbn.
    unfold Improvements.norm_ratio. f_equal.
    unfold normalize_ai_score, normalize_ai_score_at in Hone. now rewrite Hhi in Hone.
  - eexists. split; reflexivity.
Qed.

End ScoringClaims.

(* ================================================================== *)
(** * The keyword matcher *)
(* ================================================================== *)

Section MatcherFacts.
Context `{Builtins}.
Local Open Scope Q_scope.
Import Matcher.

Lemma Qnat_nonneg (n : nat) : 0 <= Qnat n.
Proof.
  unfold Qnat. change 0 with (inject_Z 0). rewrite <- Zle_Qle. lia.
Qed.

Lemma Qnat_le (m n : nat) : (m <= n)%nat -> Qnat m <= Qnat n.
Proof. intros Hle. unfold Qnat. rewrite <- Zle_Qle. lia. Qed.

Lemma Qnat_pos (n : nat) : (0 < n)%nat -> 0 < Qnat n.
Proof.
  intros Hlt. unfold Qnat. change 0 with (inject_Z 0). rewrite <- Zlt_Qlt. lia.
Qed.

(** A part over a non-empty whole is a ratio in [[0,1]]. *)
Lemma ratio_in_unit (m n : nat) :
  (m <= n)%nat -> (0 < n)%nat -> 0 <= Qnat m / Qnat n <= 1.
Proof.
  intros Hle Hpos. pose proof (Qnat_pos n Hpos) as Hn.
  pose proof (Qnat_nonneg m) as Hm. pose proof (Qnat_le m n Hle) as Hmn.
  split.
  - apply Qle_shift_div_l; [exact Hn | lra].
  - apply Qle_shift_div_r; [exact Hn | lra].
Qed.

Lemma check_keyword_match_rule (keyword : string) (all_student_keywords : gset string) :
  _check_keyword_match keyword all_student_keywords = true
  <-> keyword ∈ all_student_keywords
      \/ exists mapped_fields,
           KEYWORD_MAP !! keyword = Some mapped_fields
           /\ exists field, field ∈ mapped_fields /\ field ∈ all_student_keywords.
Proof.
  unfold _check_keyword_match.
  destruct (bool_decide (keyword ∈ all_student_keywords)) eqn:E.
  - apply bool_decide_eq_true in E. tauto.
  - apply bool_decide_eq_false in E.
    destruct (KEYWORD_MAP !! keyword) as [mapped_fields|].
    + rewrite existsb_exists. split.
      * intros (field & Hin & Hdec). right. exists mapped_fields. split; [done|].
        exists field. split; [now apply list_elem_of_In | now apply bool_decide_eq_true in Hdec].
      * intros [? | (l & [= <-] & field & Hin & Hset)]; [done|].
        exists field. split; [now apply list_elem_of_In | now apply bool_decide_eq_true].
    + split; [discriminate|]. intros [? | (? & ? & _)]; [done | discriminate].
Qed.

End MatcherFacts.

Section MatcherClaims.
Context `{Builtins}.
Local Open Scope Q_scope.
Import Matcher.

(** C5 (amended).  A job keyword counts as matched when it is in the
    candidate's set or when it is a key of [KEYWORD_MAP] one of whose
    categories is in that set.  Hence, for job keywords
    [python, fastapi, backend], mandatory [python] and a candidate whose
    tags are [python] and [backend], all three keywords match ([fastapi]
    through its categories [backend] and [python]): nothing is
    unmatched, [match_pct] is 1 and the mandatory keyword is met. *)
Theorem scenario_c_matches_by_expansion :
  (forall (keyword : string) (all_student_keywords : gset string),
      _check_keyword_match keyword all_student_keywords = true
      <-> keyword ∈ all_student_keywords
          \/ exists mapped_fields,
               KEYWORD_MAP !! keyword = Some mapped_fields
               /\ exists field, field ∈ mapped_fields /\ field ∈ all_student_keywords)
  /\ KEYWORD_MAP !! "fastapi" = Some ["backend"; "python"]
  /\ exists r,
       calculate_keyword_match Demo.candidate_c Demo.keywords_c Demo.mandatory_c = Some r
       /\ matched_keywords r = ["python"; "fastapi"; "backend"]
       /\ unmatched_keywords r = []
       /\ match_pct r == 1
       /\ mandatory_matched r = true.
Proof.
  split; [exact check_keyword_match_rule|].
  split; [now vm_compute|].
  eexists. split; [vm_compute; reflexivity|].
  cbn. repeat split.
Qed.

(** C6 (amended).  For a non-empty candidate record and a non-empty
    keyword list [calculate_keyword_match] produces a match result with
    [match_pct == len(matched) / len(keywords)]; for an empty keyword
    list, as for an empty candidate record, it returns [None] and
    produces no match result. *)
Theorem match_pct_is_the_matched_share
    (student : dict) (keywords mandatory_keywords : list string) :
  (student <> ∅ -> keywords <> [] ->
     exists r,
       calculate_keyword_match student keywords mandatory_keywords = Some r
       /\ total_keywords r = length keywords
       /\ match_pct r == Qnat (length (matched_keywords r)) / Qnat (length keywords))
  /\ (keywords = [] ->
        calculate_keyword_match student keywords mandatory_keywords = None)
  /\ (student = ∅ ->
        calculate_keyword_match student keywords mandatory_keywords = None).
Proof.
  unfold calculate_keyword_match. split; [|split].
  - intros Hs Hk.
    rewrite (bool_decide_eq_false_2 _ Hs).
    destruct keywords as [|kw keywords]; [done|].
    eexists. split; [reflexivity|]. cbn [total_keywords match_pct matched_keywords].
    split; [reflexivity|].
    set (matched := filter _ (kw :: keywords)).
    change (length (kw :: keywords) =? 0)%nat with false. cbv iota.
    apply clamp_inside, ratio_in_unit; [apply length_filter | cbn; lia].
  - intros ->. now destruct (bool_decide (student = ∅)).
  - intros ->. now rewrite bool_decide_eq_true_2.
Qed.

End MatcherClaims.

(* ================================================================== *)
(** * The stable descending sort *)
(* ================================================================== *)

Section SortFacts.
Context {A : Type}.
Local Open Scope Q_scope.
Import Ranker.

Implicit Types (x y : Q * A) (l : list (Q * A)).

Lemma insert_desc_perm x l : insert_desc x l ≡ₚ x :: l.
Proof.
  induction l as [|y ys IH]; cbn; [done|].
  destruct (Qltb (fst x) (fst y)); [|done].
  rewrite IH. apply perm_swap.
Qed.

Lemma sorted_reverse_perm l : sorted_reverse l ≡ₚ l.
Proof.
  induction l as [|x l IH]; cbn; [done|].
  now rewrite insert_desc_perm, IH.
Qed.

Lemma insert_desc_sorted x l :
  StronglySorted key_ge l -> StronglySorted key_ge (insert_desc x l).
Proof.
  induction 1 as [|y ys Hys IH Hall]; cbn; [repeat constructor|].
  destruct (Qltb_spec (fst x) (fst y)) as [Hlt | Hge].
  - constructor; [exact IH|].
    apply (Permutation_Forall (Permutation_sym (insert_desc_perm x ys))).
    constructor; [unfold key_ge; lra | exact Hall].
  - constructor; [now constructor|].
    constructor; [unfold key_ge; lra|].
    eapply Forall_impl; [exact Hall|]. unfold key_ge. intros z Hz. lra.
Qed.

Lemma sorted_reverse_sorted l : StronglySorted key_ge (sorted_reverse l).
Proof.
  induction l as [|x l IH]; cbn; [constructor | now apply insert_desc_sorted].
Qed.



Lemma keyed_total (key : A -> result Q) (f : A -> Q) (l : list A) :
  Forall (fun a => key a = Ok (f a)) l ->
  keyed key l = Ok (map (fun a => (f a, a)) l).
Proof.
  induction 1 as [|a l Ha _ IH]; cbn; [reflexivity|].
  now rewrite Ha, IH.
Qed.

End SortFacts.

(* ================================================================== *)
(** * The dual ranker *)
(* ================================================================== *)

Section RankerFacts.
Context `{Builtins}.
Local Open Scope Q_scope.
Import Ranker RankerSpec.

Lemma score_float (q : Q) : score (VFloat (Fin q)) = q.
Proof. reflexivity. Qed.

Lemma float_field_score (r : dict) (k : string) :
  convertible (get r k) = true -> float_field r k = Ok (score (get r k)).
Proof.
  unfold float_field, score, convertible.
  destruct (get r k) as [| b | z | [q | b |] | s | l]; cbn; try reflexivity.
  - intros Hz. apply negb_true_iff in Hz. now rewrite Hz.
  - now destruct (parse_float s) as [[q | b |] |].
Qed.

Lemma float_field_inv (r : dict) (k : string) (q : Q) :
  float_field r k = Ok q -> q = score (get r k).
Proof.
  unfold float_field, score.
  destruct (Scoring.safe_float (get r k) (Some 0)) as [[q' |] | e]; cbn; congruence.
Qed.

Lemma safe_int_usable (r : dict) :
  convertible (get r "student_id") = true ->
  Scoring.safe_int (get r "student_id") None = Ok (usable_id r).
Proof.
  unfold usable_id, Scoring.safe_int, convertible.
  destruct (get r "student_id") as [| b | z | [q | b |] | s | l]; cbn; try reflexivity.
  - intros Hz. apply negb_true_iff in Hz. now rewrite Hz.
  - now destruct (parse_float s) as [[q | b |] |].
Qed.

Lemma well_formed_fields (r : dict) :
  well_formed r = true ->
  convertible (get r "student_id") = true
  /\ convertible (get r "general_score") = true
  /\ convertible (get r "keyword_match_pct") = true.
Proof. unfold well_formed. rewrite !andb_true_iff. tauto. Qed.

Lemma get_coerced_other (r : dict) (k : string) :
  k <> "general_score" -> k <> "keyword_match_pct" -> coerced r !! k = r !! k.
Proof.
  intros Hg Hk. unfold coerced. now rewrite !lookup_insert_ne.
Qed.

Lemma get_coerced_general (r : dict) :
  get (coerced r) "general_score" = VFloat (Fin (score (get r "general_score"))).
Proof.
  unfold get at 1, coerced. rewrite lookup_insert_ne by done.
  now rewrite lookup_insert_eq.
Qed.

Lemma get_coerced_keyword (r : dict) :
  get (coerced r) "keyword_match_pct"
  = VFloat (Fin (score (get r "keyword_match_pct"))).
Proof. unfold get at 1, coerced. now rewrite lookup_insert_eq. Qed.

Lemma coerced_well_formed (r : dict) :
  well_formed r = true -> well_formed (coerced r) = true.
Proof.
  intros (Hid & _ & _)%well_formed_fields. unfold well_formed.
  rewrite get_coerced_general, get_coerced_keyword.
  unfold get at 1. rewrite get_coerced_other by done. fold (get r "student_id").
  now rewrite Hid.
Qed.


(** A record that already holds two finite floats is rewritten to itself. *)
Lemma coerced_id (r : dict) : holds_floats r -> coerced r = r.
Proof.
  intros (g & k & Hg & Hk). unfold coerced, get. rewrite Hg, Hk. cbn.
  rewrite ?score_float.
  rewrite (insert_id r "general_score" _ Hg). now apply insert_id.
Qed.

(** The first loop: every record is either untouched or rewritten. *)
Lemma coerce_scores_frame (l : list dict) :
  Forall2 (fun r r' => r' = r \/ r' = coerced r) l (snd (coerce_scores l)).
Proof.
  assert (Hrefl : forall l' : list dict,
             Forall2 (fun r r' : dict => r' = r \/ r' = coerced r) l' l').
  { intros l'. apply Forall2_same_length_lookup_2; [done|].
    intros i x y Hx Hy. left. congruence. }
  induction l as [|r rest IH]; cbn; [constructor|].
  destruct (float_field r "general_score") as [g | e] eqn:Eg; [|apply Hrefl].
  destruct (float_field r "keyword_match_pct") as [k | e] eqn:Ek; [|apply Hrefl].
  destruct (coerce_scores rest) as [res rest']. cbn in *.
  constructor; [|exact IH]. right.
  apply float_field_inv in Eg, Ek. unfold coerced. now rewrite Eg, Ek.
Qed.

Lemma coerce_scores_total (l : list dict) :
  Forall (fun r => well_formed r = true) l ->
  coerce_scores l = (Ok tt, map coerced l).
Proof.
  induction 1 as [|r rest Hr _ IH]; cbn; [reflexivity|].
  destruct (well_formed_fields r Hr) as (_ & Hg & Hk).
  rewrite (float_field_score r _ Hg), (float_field_score r _ Hk), IH.
  reflexivity.
Qed.

Lemma sorted_by_total (field : string) (l : list dict) :
  Forall (fun r => convertible (get r field) = true) l ->
  sorted_by field l = Ok (ordered_by field l).
Proof.
  intros Hl. unfold sorted_by, ordered_by.
  rewrite (keyed_total _ (fun r => score (get r field))); [reflexivity|].
  eapply Forall_impl; [exact Hl|]. intros r. apply float_field_score.
Qed.

Lemma build_ranking_total (n : nat) (ranked : list dict) :
  Forall (fun r => well_formed r = true) ranked ->
  build_ranking n ranked = Ok (ranked_entries n ranked).
Proof.
  intros Hl. revert n.
  induction Hl as [|r rest Hr _ IH]; intros n; cbn; [reflexivity|].
  destruct (well_formed_fields r Hr) as (Hid & Hg & Hk).
  rewrite (safe_int_usable r Hid). cbn. unfold entry_of.
  destruct (usable_id r) as [id|]; [|apply IH].
  rewrite (float_field_score r _ Hg), (float_field_score r _ Hk), IH.
  reflexivity.
Qed.

Lemma ordered_by_perm (field : string) (l : list dict) : ordered_by field l ≡ₚ l.
Proof.
  unfold ordered_by. rewrite sorted_reverse_perm.
  rewrite <- list_fmap_compose. cbn. now rewrite list_fmap_id.
Qed.

(** What [rank_students] returns, and leaves behind, on well-formed records. *)
Lemma rank_students_total (l : list dict) :
  Forall (fun r => well_formed r = true) l ->
  rank_students l
  = (Ok {| general_ranking :=
             ranked_entries 1 (ordered_by "general_score" (map coerced l));
           job_specific_ranking :=
             ranked_entries 1 (ordered_by "keyword_match_pct" (map coerced l)) |},
     map coerced l).
Proof.
  intros Hl.
  assert (Hc : Forall (fun r => well_formed r = true) (map coerced l)).
  { apply Forall_fmap. eapply Forall_impl; [exact Hl|]. apply coerced_well_formed. }
  destruct l as [|r0 rest]; [reflexivity|].
  unfold rank_students. rewrite (coerce_scores_total _ Hl).
  rewrite !sorted_by_total;
    try (eapply Forall_impl; [exact Hc|]; intros r Hr;
         now destruct (well_formed_fields r Hr) as (? & ? & ?)).
  cbn [result_bind].
  rewrite !build_ranking_total;
    try (eapply Permutation_Forall; [symmetry; apply ordered_by_perm | exact Hc]).
  reflexivity.
Qed.

End RankerFacts.

Section ViewFacts.
Context `{Builtins}.
Local Open Scope Q_scope.
Import Ranker RankerSpec.

Lemma ranked_entries_unranked (n : nat) (l : list dict) :
  map unranked (ranked_entries n l) = candidates l.
Proof.
  unfold candidates. revert n.
  induction l as [|r rest IH]; intros n; cbn; [reflexivity|].
  unfold entry_of. destruct (usable_id r) as [id|]; cbn; now rewrite IH.
Qed.


(** Whatever holds of the records holds of the entries built from them. *)
Lemma ranked_entries_Forall (P : dict -> Prop) (Q : RankingEntry -> Prop)
    (n : nat) (l : list dict) :
  (forall r m e, P r -> entry_of m r = Some e -> Q e) ->
  Forall P l -> Forall Q (ranked_entries n l).
Proof.
  intros HPQ Hl. revert n.
  induction Hl as [|r rest Hr _ IH]; intros n; cbn; [constructor|].
  destruct (entry_of n r) as [e|] eqn:E; [|apply IH].
  constructor; [now apply (HPQ r n) | apply IH].
Qed.



Lemma ranked_entries_consecutive (n : nat) (l : list dict) :
  Forall (fun r => is_Some (usable_id r)) l ->
  map rank (ranked_entries n l) = seq n (length l).
Proof.
  intros Hl. revert n.
  induction Hl as [|r rest [id Hid] _ IH]; intros n; cbn; [reflexivity|].
  unfold entry_of. rewrite Hid. cbn. now rewrite IH.
Qed.

Lemma entry_of_keys (m : nat) (r : dict) (e : RankingEntry) :
  entry_of m r = Some e ->
  general_score e = score (get r "general_score")
  /\ keyword_match_pct e = score (get r "keyword_match_pct").
Proof.
  unfold entry_of. destruct (usable_id r); [|discriminate].
  intros [= <-]. split; reflexivity.
Qed.

(** The records of [ordered_by] are in descending order of their key. *)
Lemma ordered_by_sorted (field : string) (l : list dict) :
  StronglySorted
    (fun r1 r2 => score (get r2 field) <= score (get r1 field))
    (ordered_by field l).
Proof.
  unfold ordered_by.
  set (ks := map (fun r => (score (get r field), r)) l).
  assert (Hks : Forall (fun p => fst p = score (get (snd p) field)) (sorted_reverse ks)).
  { eapply Permutation_Forall; [symmetry; apply sorted_reverse_perm|].
    subst ks. apply Forall_fmap. now apply Forall_true. }
  pose proof (sorted_reverse_sorted ks) as Hs.
  induction Hs as [|p ps Hps IH Hall]; cbn; [constructor|].
  apply Forall_cons in Hks as [Hp Hks].
  constructor; [now apply IH|].
  apply Forall_fmap. rewrite Forall_forall in Hall, Hks |- *.
  intros p' Hin. cbn. specialize (Hall p' Hin). specialize (Hks p' Hin).
  unfold key_ge in Hall. now rewrite <- Hp, <- Hks.
Qed.

Lemma ranked_entries_descending (key : RankingEntry -> Q) (field : string)
    (n : nat) (l : list dict) :
  (forall m r e, entry_of m r = Some e -> key e = score (get r field)) ->
  StronglySorted (fun r1 r2 => score (get r2 field) <= score (get r1 field)) l ->
  descending key (ranked_entries n l).
Proof.
  intros Hkey Hs. revert n. unfold descending.
  induction Hs as [|r rest Hrest IH Hall]; intros n; cbn; [constructor|].
  destruct (entry_of n r) as [e|] eqn:E; [|apply IH].
  constructor; [apply IH|].
  eapply ranked_entries_Forall; [|exact Hall].
  cbn. intros r' m e' Hle E'.
  now rewrite (Hkey _ _ _ E), (Hkey _ _ _ E').
Qed.



Lemma candidates_perm (l l' : list dict) : l ≡ₚ l' -> candidates l ≡ₚ candidates l'.
Proof. unfold candidates. now intros ->. Qed.

End ViewFacts.

Section RankerClaims.
Context `{Builtins}.
Local Open Scope Q_scope.
Import Ranker RankerSpec.


Lemma frame_fixed (l store : list dict) :
  Forall2 (fun r r' => r' = r \/ r' = coerced r) l store ->
  Forall holds_floats l -> store = l.
Proof.
  induction 1 as [|r r' rest rest' Hrr' _ IH]; intros Hl; [reflexivity|].
  apply Forall_cons in Hl as [Hr Hl]. f_equal; [|now apply IH].
  destruct Hrr' as [-> | ->]; [reflexivity | now apply coerced_id].
Qed.

(** C9 (amended).  [rank_students] writes into the records it is given:
    each record is left as it was or has [general_score] and
    [keyword_match_pct] overwritten with the floats [safe_float] makes of
    them (0.0 when absent or unreadable).  No other key of any record
    changes; on well-formed records every record is overwritten this
    way; and a record whose two fields already hold finite floats keeps
    the same values. *)
Theorem rank_students_rewrites_two_fields (l : list dict) :
  let store := snd (rank_students l) in
  Forall2 (fun r r' => r' = r \/ r' = coerced r) l store
  /\ (forall i r r' k,
        l !! i = Some r -> store !! i = Some r' ->
        k <> "general_score" -> k <> "keyword_match_pct" ->
        r' !! k = r !! k)
  /\ (Forall (fun r => well_formed r = true) l -> store = map coerced l)
  /\ (Forall holds_floats l -> store = l).
Proof.
  cbn zeta.
  assert (Hstore : snd (rank_students l) = snd (coerce_scores l)).
  { unfold rank_students. destruct l as [|r0 rest]; [reflexivity|].
    now destruct (coerce_scores (r0 :: rest)) as [[[] | e] st]. }
  rewrite Hstore.
  pose proof (coerce_scores_frame l) as Hframe.
  split; [exact Hframe|]. split; [|split].
  - intros i r r' k Hr Hr' Hg Hk.
    destruct (Forall2_lookup_lr _ _ _ _ _ _ Hframe Hr Hr') as [-> | ->];
      [reflexivity | now apply get_coerced_other].
  - intros Hl. now rewrite (coerce_scores_total l Hl).
  - intros Hl. now apply frame_fixed.
Qed.

End RankerClaims.

(* ================================================================== *)
(** * Worked inputs *)
(* ================================================================== *)

Ltac evaluate := vm_compute; first [reflexivity | discriminate | tauto].

Section WorkedScoring.
Local Existing Instance Demo.builtins.
Local Open Scope Q_scope.
Import Scoring ScoringSpec.

(** The claim of C1 fails at [calculate_HPPS(CF_rating=2 ** 1024)]: the
    conversion of the rating raises inside the computation of [AD], yet
    the result is not the all-zero dictionary: [AD] is 0.5, the other
    sub-scores are computed, [HPPS] is positive and [errors] is empty. *)
Lemma huge_rating_is_absorbed :
  let s := Demo.signals_huge_rating in
  let r := calculate_HPPS s in
  calculate_AD_try (CF_rating s) (LC_rating s)
    (CF_hard_problem_ratio s) (LC_medium_hard_ratio s) []
  = (Raise OverflowError, [])
  /\ AD r == 0.5 /\ EAP r == 0.3 /\ 0 < HPPS r
  /\ head (warnings r)
     = Some "Error in calculate_AD: int too large to convert to float"
  /\ errors r = [].
Proof. repeat split; evaluate. Qed.

Lemma calculate_HPPS_absorbs_faults_witness :
  let s := Demo.signals_huge_rating in
  calculate_AD (CF_rating s) (LC_rating s)
    (CF_hard_problem_ratio s) (LC_medium_hard_ratio s) []
  = (Ok 0.5, [] ++ ["Error in calculate_AD: " +:+ exn_str OverflowError]).
Proof.
  exact (proj1 (proj2 (proj2 (calculate_HPPS_absorbs_faults Demo.signals_huge_rating)))
           [] OverflowError [] eq_refl).
Defined.

(** Scenario B: [AD = 0.35], [EAP = CCL = 0.9]. *)
Lemma penalty_interpolation_witness :
  exists v w1,
    apply_min_dominance_penalty 0.35 0.9 0.9 0.3 0.5 true [] = (Ok v, w1)
    /\ v == 0.675.
Proof.
  destruct (penalty_interpolation 0.35 0.9 0.9 true [])
    as (v & w1 & E & _ & _ & _ & _ & H35);
    [split; vm_compute; discriminate ..|].
  exists v, w1. split; [exact E|]. apply H35. vm_compute. reflexivity.
Defined.

End WorkedScoring.

Section WorkedMatcher.
Local Existing Instance Demo.builtins.
Local Open Scope Q_scope.
Import Matcher.

(** The claim of C5 fails on its own scenario: [fastapi] is matched
    through [KEYWORD_MAP], so the matched list is not [python, backend],
    nothing is unmatched and [match_pct] is 1, not 0.667. *)
Lemma scenario_c_fastapi_is_matched :
  exists r,
    calculate_keyword_match Demo.candidate_c Demo.keywords_c Demo.mandatory_c = Some r
    /\ matched_keywords r = ["python"; "fastapi"; "backend"]
    /\ matched_keywords r <> ["python"; "backend"]
    /\ unmatched_keywords r = []
    /\ unmatched_keywords r <> ["fastapi"]
    /\ match_pct r == 1
    /\ ~ match_pct r == 0.667
    /\ ~ match_pct r == 2 # 3.
Proof.
  eexists. split; [vm_compute; reflexivity|]. cbn. repeat split; discriminate.
Qed.

(** The claim of C6 fails at an empty keyword list: no match result is
    produced, so none with [match_pct == 0.0]. *)
Lemma empty_keywords_give_no_result :
  calculate_keyword_match Demo.candidate_c [] Demo.mandatory_c = None.
Proof. reflexivity. Qed.

Lemma match_pct_is_the_matched_share_witness :
  exists r,
    calculate_keyword_match Demo.candidate_c Demo.keywords_c Demo.mandatory_c = Some r
    /\ total_keywords r = 3%nat
    /\ match_pct r == Qnat (length (matched_keywords r)) / Qnat 3.
Proof.
  apply (proj1 (match_pct_is_the_matched_share
                  Demo.candidate_c Demo.keywords_c Demo.mandatory_c)).
  - vm_compute. discriminate.
  - discriminate.
Defined.

End WorkedMatcher.

Section WorkedValidation.
Local Existing Instance Demo.builtins.
Local Open Scope Q_scope.
Import Scoring.

(** The claim of C7 fails at [validate_rating(-5, "CF_rating", warnings)]:
    the value returned is [None], not 0. *)
Lemma negative_rating_is_not_clamped :
  Scoring.validate_rating (VInt (-5)) "CF_rating" []
  = (Ok None, ["CF_rating negative (-5), treating as missing"]).
Proof. reflexivity. Qed.

Lemma validate_rating_negative_is_missing_witness :
  Scoring.validate_rating (VInt (-5)) "CF_rating" []
  = (Ok None, [] ++ ["CF_rating negative (-5), treating as missing"]).
Proof.
  exact (proj1 (validate_rating_negative_is_missing (VInt (-5)) "CF_rating" [])
           (inject_Z (-5)) eq_refl eq_refl).
Defined.

(** The function of the same name in [hpps_improvements.py] does clamp a
    negative rating to 0, and raises on a value that is not a number. *)
Lemma improved_validate_rating_clamps :
  Improvements.validate_rating (VInt (-5)) "codeforces" []
  = (Ok (Some (Fin 0)), ["codeforces rating is negative (-5), clamping to 0"])
  /\ Improvements.validate_rating (VStr "n/a") "codeforces" []
     = (Raise ValidationError, []).
Proof. split; reflexivity. Qed.

Lemma normalize_ai_score_not_monotonic_witness : normalize_ai_score 5 == 1.
Proof.
  apply (proj1 normalize_ai_score_not_monotonic 5).
  split; [reflexivity | discriminate].
Defined.

End WorkedValidation.

Section WorkedRanker.
Local Existing Instance Demo.builtins.
Local Open Scope Q_scope.
Import Ranker RankerSpec.



(** The claim of C9 fails at a record that stores its score as text: after
    the call the text is a float and a [keyword_match_pct] has appeared. *)
Lemma textual_score_is_rewritten :
  exists r',
    snd (rank_students [Demo.textual]) = [r']
    /\ Demo.textual !! "general_score" = Some (VStr "85")
    /\ r' !! "general_score" = Some (VFloat (Fin 85))
    /\ Demo.textual !! "keyword_match_pct" = None
    /\ r' !! "keyword_match_pct" = Some (VFloat (Fin 0)).
Proof. eexists. split; [vm_compute; reflexivity|]. repeat split. Qed.

Lemma rank_students_rewrites_two_fields_witness :
  snd (rank_students [Demo.alice; Demo.bob]) = [Demo.alice; Demo.bob].
Proof.
  apply (proj2 (proj2 (proj2 (rank_students_rewrites_two_fields [Demo.alice; Demo.bob])))).
  repeat constructor; eexists _, _; split; vm_compute; reflexivity.
Defined.

End WorkedRanker.

(** The scenario values on IEEE doubles, as the interpreter computes them. *)
Section Doubles.
Local Open Scope float_scope.
Set Warnings "-inexact-float".

Lemma binary64_penalty_points :
  Binary64.apply_min_dominance_penalty 0.4 0.9 0.9 0.3 0.5 = 1
  /\ Binary64.apply_min_dominance_penalty 0 0.9 0.9 0.3 0.5 = 0.5
  /\ Binary64.apply_min_dominance_penalty 0.35 0.9 0.9 0.3 0.5 = 0.675.
Proof. repeat split; vm_compute; reflexivity. Qed.

Lemma binary64_scale_points :
  Binary64.normalize_ai_score 1.5 = 1
  /\ Binary64.normalize_ai_score 10 = 1
  /\ Binary64.normalize_ai_score 11 = 0.11.
Proof. repeat split; vm_compute; reflexivity. Qed.

Set Warnings "+inexact-float".
End Doubles.

(* ================================================================== *)
(** * Further properties of the scoring engine *)
(* ================================================================== *)

Section ValidatorFacts.
Context `{Builtins}.
Local Open Scope Q_scope.
Import Scoring ScoringSpec.

(** X1.  [safe_float] raises on one kind of input only: an [int] too large to
    be a [float], for which it raises [OverflowError]; [safe_int]
    inherits exactly that fault.  On every other input both return. *)
Theorem safe_float_raises_only_on_huge_int (value : pyval) (default : option Q) :
  ((exists e, safe_float value default = Raise e)
   <-> exists z, value = VInt z /\ int_too_large z = true)
  /\ (forall e, safe_float value default = Raise e -> e = OverflowError)
  /\ (forall d e, safe_int value d = Raise e <-> safe_float value default = Raise e).
Proof.
  assert (Hsi : forall d e,
             safe_int value d = Raise e <-> safe_float value (inject_Z <$> d) = Raise e).
  { intros d e. unfold safe_int.
    destruct (safe_float value (inject_Z <$> d)) as [[q |] | e']; cbn;
      split; congruence. }
  assert (Hany : forall d d' e, safe_float value d = Raise e -> safe_float value d' = Raise e).
  { intros d d' e. unfold safe_float.
    destruct value as [| b | z | [q | b |] | s | l]; try discriminate.
    - now destruct (int_too_large z).
    - now destruct (parse_float s) as [[q | b |] |]. }
  split; [|split].
  - unfold safe_float. split.
    + intros [e He].
      destruct value as [| b | z | [q | b |] | s | l]; try discriminate.
      * exists z. split; [reflexivity|]. now destruct (int_too_large z).
      * now destruct (parse_float s) as [[q | b |] |].
    + intros (z & -> & Hz). rewrite Hz. now exists OverflowError.
  - intros e. unfold safe_float.
    destruct value as [| b | z | [q | b |] | s | l]; try discriminate.
    + destruct (int_too_large z); [congruence | discriminate].
    + now destruct (parse_float s) as [[q | b |] |].
  - intros d e. rewrite Hsi. split; apply Hany.
Qed.





(** X4.  [validate_ratio] returns a value in [[0,1]] and adds at most one
    warning; a number already in [[0,1]] is returned as it is with no
    warning, and a missing or unreadable one becomes 0.5 with a warning. *)
Theorem validate_ratio_contract (value : pyval) (name : string) (w : list string) :
  (forall r w1, validate_ratio value name w = (Ok r, w1) ->
     0 <= r <= 1 /\ (w1 = w \/ exists msg, w1 = w ++ [msg]))
  /\ (forall q, safe_float value None = Ok (Some q) -> 0 <= q <= 1 ->
        validate_ratio value name w = (Ok q, w))
  /\ (safe_float value None = Ok None ->
        validate_ratio value name w
        = (Ok 0.5, w ++ [name +:+ " missing, using neutral fallback 0.5"])).
Proof.
  unfold validate_ratio, mbind, M_bind, bind, lift.
  destruct (safe_float value None) as [[q |] | e].
  - destruct (Qltb_spec q 0) as [Hneg | Hnn];
      [|destruct (Qltb_spec 1 q) as [Hgt | Hle]]; cbn;
      (split; [intros r w1 [= <- <-]; split; [lra | eauto]|]);
      (split; [intros q' [= <-] [Hlo Hhi]; first [lra | reflexivity] | discriminate]).
  - cbn. split; [intros r w1 [= <- <-]; split; [lra | eauto]|].
    split; [discriminate | reflexivity].
  - cbn. repeat split; discriminate.
Qed.

Lemma py_int_nonneg (q : Q) : -1 < q -> (0 <= py_int q)%Z.
Proof.
  intros Hq. unfold py_int. destruct (Qltb_spec q 0) as [Hneg | Hpos].
  - pose proof (Qle_ceiling q) as Hc.
    assert (Hlt : inject_Z (-1) < inject_Z (Qceiling q))
      by (apply Qlt_le_trans with q; [exact Hq | exact Hc]).
    rewrite <- Zlt_Qlt in Hlt. lia.
  - apply Qnot_lt_le in Hpos.
    change 0%Z with (Qfloor 0). now apply Qfloor_resp_le.
Qed.

(** X5.  [validate_count] never returns a negative count.  A number is
    truncated toward zero before the sign test, so a value in [(-1, 0)]
    is accepted as 0 with no warning, like any non-negative number. *)
Theorem validate_count_contract (value : pyval) (name : string) (w : list string) :
  (forall n w1, validate_count value name w = (Ok n, w1) -> (0 <= n)%Z)
  /\ (forall q, safe_float value None = Ok (Some q) -> -1 < q ->
        validate_count value name w = (Ok (py_int q), w))
  /\ (forall q, safe_float value None = Ok (Some q) -> q <= -1 ->
        validate_count value name w
        = (Ok 0%Z,
           w ++ [name +:+ " negative (" +:+ py_str value +:+ "), clamping to 0"])).
Proof.
  unfold validate_count, safe_int, mbind, M_bind, bind, lift. cbn [fmap option_fmap option_map].
  destruct (safe_float value None) as [[q |] | e]; cbn; repeat split;
    try discriminate; try congruence.
  - intros n w1. destruct (py_int q <? 0)%Z eqn:E; cbn; intros [= <- _]; lia.
  - intros q' [= <-] Hq. apply py_int_nonneg in Hq.
    assert (E : (py_int q <? 0)%Z = false) by lia. now rewrite E.
  - intros q' [= <-] Hq.
    assert (E : (py_int q <? 0)%Z = true).
    { apply Z.ltb_lt. unfold py_int.
      assert (Hneg : Qltb q 0 = true) by (apply Qltb_lt; lra). rewrite Hneg.
      assert (Hc : (Qceiling q <= Qceiling (inject_Z (-1)))%Z)
        by (apply Qceiling_resp_le; exact Hq).
      rewrite Qceiling_Z in Hc. lia. }
    now rewrite E.
  - intros n w1 [= <- _]. lia.
Qed.

End ValidatorFacts.

Section NormaliserFacts.
Local Open Scope Q_scope.
Import Scoring.






End NormaliserFacts.

(* ================================================================== *)
(** * The warnings list is only appended to *)
(* ================================================================== *)

Section AppendOnly.
Context {A B : Type}.

Lemma appends_ret (a : A) : appends (ret a).
Proof. exists (Ok a), []. intros w. unfold ret. now rewrite app_nil_r. Qed.

Lemma appends_lift (r : result A) : appends (lift r).
Proof. exists r, []. intros w. unfold lift. now rewrite app_nil_r. Qed.

Lemma appends_bind (m : M A) (k : A -> M B) :
  appends m -> (forall a, appends (k a)) -> appends (bind m k).
Proof.
  intros ([a | e] & s & Hm) Hk.
  - destruct (Hk a) as (r & s' & Hka). exists r, (s ++ s').
    intros w. unfold bind. now rewrite Hm, Hka, app_assoc.
  - exists (Raise e), s. intros w. unfold bind. now rewrite Hm.
Qed.

Lemma appends_try (m : M A) (h : exn -> M A) :
  appends m -> (forall e, appends (h e)) -> appends (try_except m h).
Proof.
  intros ([a | e] & s & Hm) Hh.
  - exists (Ok a), s. intros w. unfold try_except. now rewrite Hm.
  - destruct (Hh e) as (r & s' & Hhe). exists r, (s ++ s').
    intros w. unfold try_except. now rewrite Hm, Hhe, app_assoc.
Qed.

End AppendOnly.

Lemma appends_warn (msg : string) : appends (warn msg).
Proof. exists (Ok tt), [msg]. reflexivity. Qed.

Ltac appends_steps :=
  repeat first
    [ apply appends_ret
    | apply appends_warn
    | apply appends_lift
    | apply appends_bind; [|intros ?]
    | apply appends_try; [|intros ?]
    | progress cbv zeta
    | match goal with
      | |- appends (match ?x with _ => _ end) => destruct x
      end ].

Section ScoringAppendOnly.
Context `{Builtins}.
Local Open Scope Q_scope.
Import Scoring ScoringSpec.

Lemma validate_ratio_appends v name : appends (validate_ratio v name).
Proof. unfold validate_ratio. appends_steps. Qed.

Lemma validate_count_appends v name : appends (validate_count v name).
Proof. unfold validate_count. appends_steps. Qed.

Lemma validate_rating_appends v name : appends (validate_rating v name).
Proof. unfold validate_rating. appends_steps. Qed.

Lemma validate_ai_score_appends v name : appends (validate_ai_score v name).
Proof. unfold validate_ai_score. appends_steps. Qed.

Lemma get_best_rating_percentile_appends a b :
  appends (get_best_rating_percentile a b).
Proof.
  unfold get_best_rating_percentile.
  apply appends_bind; [apply validate_rating_appends | intros ?].
  apply appends_bind; [apply validate_rating_appends | intros ?].
  appends_steps.
Qed.

Lemma calculate_AD_appends a b c d : appends (calculate_AD a b c d).
Proof.
  unfold calculate_AD, calculate_AD_try.
  apply appends_try; [|intros e; appends_steps].
  apply appends_bind; [apply get_best_rating_percentile_appends | intros ?].
  cbv zeta.
  apply appends_bind; [apply validate_ratio_appends | intros ?].
  apply appends_bind; [apply validate_ratio_appends | intros ?].
  appends_steps.
Qed.

Lemma calculate_EAP_appends a b c d : appends (calculate_EAP a b c d).
Proof.
  unfold calculate_EAP, calculate_EAP_try.
  apply appends_try; [|intros e; appends_steps].
  apply appends_bind; [apply validate_count_appends | intros ?].
  cbv zeta.
  repeat (apply appends_bind; [apply validate_ai_score_appends | intros ?]).
  appends_steps.
Qed.

Lemma calculate_CCL_appends a b c d : appends (calculate_CCL a b c d).
Proof.
  unfold calculate_CCL, calculate_CCL_try.
  apply appends_try; [|intros e; appends_steps].
  apply appends_bind; [apply validate_count_appends | intros ?].
  cbv zeta.
  apply appends_bind; [apply appends_lift | intros ?].
  apply appends_bind; [appends_steps | intros ?].
  apply appends_bind; [apply appends_lift | intros ?].
  apply appends_bind; [appends_steps | intros ?].
  apply appends_bind; [apply validate_count_appends | intros ?].
  appends_steps.
Qed.

Lemma calculate_LA_appends a b c d : appends (calculate_LA a b c d).
Proof.
  unfold calculate_LA, calculate_LA_try.
  apply appends_try; [|intros e; appends_steps].
  repeat (apply appends_bind; [apply validate_ai_score_appends | intros ?]).
  appends_steps.
Qed.

Lemma penalty_appends ad eap ccl pmin pmax log :
  appends (apply_min_dominance_penalty ad eap ccl pmin pmax log).
Proof. unfold apply_min_dominance_penalty. appends_steps. Qed.

Lemma appends_returns {A} (m : M A) (P : A -> Prop) :
  appends m -> (exists v w1, m [] = (Ok v, w1) /\ P v) ->
  exists v added, P v /\ forall w, m w = (Ok v, w ++ added).
Proof.
  intros (r & s & Hm) (v & w1 & E & HP). rewrite Hm in E.
  injection E as -> _. now exists v, s.
Qed.

(** X8.  Every sub-score calculator returns a value in [[0,1]] that does not
    depend on the warnings recorded before the call, and it only appends
    to that list: the warnings present before the call stay, in order,
    in front of the ones it adds. *)
Theorem calculators_only_append (a b c d : pyval) :
  (exists v added, 0 <= v <= 1
     /\ forall w, calculate_AD a b c d w = (Ok v, w ++ added))
  /\ (exists v added, 0 <= v <= 1
        /\ forall w, calculate_EAP a b c d w = (Ok v, w ++ added))
  /\ (exists v added, 0 <= v <= 1
        /\ forall w, calculate_CCL a b c d w = (Ok v, w ++ added))
  /\ (exists v added, 0 <= v <= 1
        /\ forall w, calculate_LA a b c d w = (Ok v, w ++ added)).
Proof.
  repeat split.
  - apply appends_returns; [apply calculate_AD_appends | apply calculate_AD_returns].
  - apply appends_returns; [apply calculate_EAP_appends | apply calculate_EAP_returns].
  - apply appends_returns; [apply calculate_CCL_appends | apply calculate_CCL_returns].
  - apply appends_returns; [apply calculate_LA_appends | apply calculate_LA_returns].
Qed.

(** X9.  A negative rating counts as a missing one: with a negative value in
    place of either rating, [get_best_rating_percentile] returns the
    percentile it returns when that rating is absent (only a warning is
    added). *)
Theorem negative_rating_counts_as_missing (x : Q) (other : pyval) (w : list string) :
  x < 0 ->
  fst (get_best_rating_percentile (VFloat (Fin x)) other w)
  = fst (get_best_rating_percentile VNone other w)
  /\ fst (get_best_rating_percentile other (VFloat (Fin x)) w)
     = fst (get_best_rating_percentile other VNone w).
Proof.
  intros Hx. apply Qltb_lt in Hx.
  unfold get_best_rating_percentile, mbind, M_bind, bind.
  split.
  - destruct (validate_rating_appends other "LC_rating") as (r & s & Hr).
    unfold validate_rating at 1 3, mbind, M_bind, bind, lift. cbn. rewrite Hx. cbn.
    rewrite !Hr. destruct r as [[l |] | e]; reflexivity.
  - destruct (validate_rating other "CF_rating" w) as [[[c |] | e] w1]; try reflexivity;
      unfold validate_rating, mbind, M_bind, bind, lift; cbn; rewrite Hx; reflexivity.
Qed.





End ScoringAppendOnly.

(* ================================================================== *)
(** * The dominance penalty and the composite score *)
(* ================================================================== *)

Section PenaltyFacts.
Context `{Builtins}.
Local Open Scope Q_scope.
Import Scoring ScoringSpec.

Lemma py_min3_lower (a b c lo : Q) :
  lo <= a -> lo <= b -> lo <= c -> lo <= py_min3 a b c.
Proof.
  intros Ha Hb Hc. rewrite py_min3_is_min.
  apply Q.min_glb; [exact Ha | now apply Q.min_glb].
Qed.

(** X11.  The multiplier jumps: for non-negative sub-scores
    [apply_min_dominance_penalty] returns either exactly 1 (weakest
    sub-score at least 0.4, no warning recorded) or a value in
    [[0.5, 0.7]] (weakest sub-score below 0.4, one warning recorded when a
    list is passed).  It is never strictly between 0.7 and 1. *)
Theorem penalty_is_a_jump (ad eap ccl : Q) (log : bool) (w : list string) :
  0 <= ad -> 0 <= eap -> 0 <= ccl ->
  exists v w1,
    apply_min_dominance_penalty ad eap ccl 0.3 0.5 log w = (Ok v, w1)
    /\ ((0.4 <= Qmin ad (Qmin eap ccl) /\ v = 1 /\ w1 = w)
        \/ (Qmin ad (Qmin eap ccl) < 0.4 /\ 0.5 <= v <= 0.7
            /\ if log then exists msg, w1 = w ++ [msg] else w1 = w)).
Proof.
  intros Ha He Hc.
  pose proof (py_min3_lower ad eap ccl 0 Ha He Hc) as Hm.
  pose proof (py_min3_is_min ad eap ccl) as Hmin.
  unfold apply_min_dominance_penalty, try_except.
  destruct (Qltb_spec (py_min3 ad eap ccl) 0.4) as [Hlt | Hge].
  - destruct log; cbn; eexists _, _; (split; [reflexivity|]); right;
      (split; [lra|]); rewrite div_by_04; (split; [lra|]); eauto.
  - cbn. eexists _, _. split; [reflexivity|]. left. repeat split. lra.
Qed.

(** X12.  The multiplier never falls when the sub-scores rise: raising any of
    [AD], [EAP], [CCL] cannot make [apply_min_dominance_penalty] return
    a smaller multiplier. *)
Theorem penalty_is_monotone (ad eap ccl ad' eap' ccl' : Q) (log : bool)
    (w : list string) :
  ad <= ad' -> eap <= eap' -> ccl <= ccl' ->
  exists v v' w1 w1',
    apply_min_dominance_penalty ad eap ccl 0.3 0.5 log w = (Ok v, w1)
    /\ apply_min_dominance_penalty ad' eap' ccl' 0.3 0.5 log w = (Ok v', w1')
    /\ v <= v'.
Proof.
  intros Ha He Hc.
  destruct (penalty_returns ad eap ccl 0.3 0.5 log w) as (w1 & E).
  destruct (penalty_returns ad' eap' ccl' 0.3 0.5 log w) as (w1' & E').
  eexists _, _, _, _. split; [exact E|]. split; [exact E'|].
  assert (Hm : py_min3 ad eap ccl <= py_min3 ad' eap' ccl').
  { rewrite !py_min3_is_min.
    apply Q.min_le_compat; [exact Ha | now apply Q.min_le_compat]. }
  unfold multiplier.
  destruct (Qltb_spec (py_min3 ad eap ccl) 0.4);
    destruct (Qltb_spec (py_min3 ad' eap' ccl') 0.4);
    rewrite ?div_by_04; lra.
Qed.


(** X14.  The composite never exceeds its base: in every result
    [HPPS == penalty_multiplier * base_HPPS <= base_HPPS], where
    [base_HPPS] is the weighted sum of the four returned sub-scores, and
    [penalty_applied] holds exactly when the smallest of the returned
    [AD], [EAP], [CCL] is below 0.4. *)
Theorem composite_is_attenuated_base (s : Signals) :
  let r := calculate_HPPS s in
  HPPS r == penalty_multiplier r * base_HPPS r
  /\ base_HPPS r == 0.30 * AD r + 0.30 * EAP r + 0.25 * CCL r + 0.15 * LA r
  /\ HPPS r <= base_HPPS r
  /\ (penalty_applied r = true <-> Qmin (AD r) (Qmin (EAP r) (CCL r)) < 0.4).
Proof.
  destruct (calculate_HPPS_shape s)
    as (ad & eap & ccl & la & w & Had & Heap & Hccl & Hla & ->).
  cbn.
  pose proof (multiplier_range ad eap ccl ltac:(lra) ltac:(lra) ltac:(lra)) as Hm.
  set (pf := multiplier ad eap ccl 0.3 0.5) in *.
  set (base := 0.30 * ad + 0.30 * eap + 0.25 * ccl + 0.15 * la).
  assert (Hbase : 0 <= base <= 1) by (subst base; lra).
  assert (Hprod : 0 <= pf * base <= base) by nra.
  assert (Ead : clamp01 ad == ad) by (apply clamp_inside; lra).
  assert (Eeap : clamp01 eap == eap) by (apply clamp_inside; lra).
  assert (Eccl : clamp01 ccl == ccl) by (apply clamp_inside; lra).
  assert (Ela : clamp01 la == la) by (apply clamp_inside; lra).
  assert (Eb : clamp01 base == base) by (apply clamp_inside; lra).
  assert (Ef : clamp01 (pf * base) == pf * base) by (apply clamp_inside; lra).
  split; [rewrite Ef, Eb; reflexivity|].
  split; [rewrite Eb, Ead, Eeap, Eccl, Ela; reflexivity|].
  split; [lra|].
  rewrite Ead, Eeap, Eccl, <- py_min3_is_min.
  rewrite Qltb_lt. subst pf. unfold multiplier.
  destruct (Qltb_spec (py_min3 ad eap ccl) 0.4) as [Hlt | Hge].
  - rewrite div_by_04. pose proof (py_min3_lower ad eap ccl 0). lra.
  - lra.
Qed.

End PenaltyFacts.

(* ================================================================== *)
(** * Keyword normalisation *)
(* ================================================================== *)

Section KeywordFacts.
Import Matcher Keywords.

Ltac all_chars c :=
  destruct c as [[] [] [] [] [] [] [] []]; vm_compute; try reflexivity;
  try discriminate; auto.

Lemma slug_char_lower (c : ascii) : slug_char c = true -> lower c = c.
Proof. all_chars c. Qed.

Lemma slug_char_kept (c : ascii) :
  slug_char c = true -> is_word c || is_space c || is_hyphen c = true.
Proof. all_chars c. Qed.

Lemma slug_char_not_sep (c : ascii) :
  slug_char c = true -> is_space c || is_hyphen c = false.
Proof. all_chars c. Qed.

Lemma slug_char_not_space (c : ascii) : slug_char c = true -> is_space c = false.
Proof. all_chars c. Qed.

Lemma kept_lower_is_slug (c : ascii) :
  is_word (lower c) || is_space (lower c) || is_hyphen (lower c) = true ->
  is_space (lower c) || is_hyphen (lower c) = false ->
  slug_char (lower c) = true.
Proof. all_chars c. Qed.

Lemma underscore_is_slug : slug_char "_"%char = true.
Proof. reflexivity. Qed.

Lemma head_rev {A} (l : list A) : head (rev l) = last l.
Proof.
  destruct l as [|a l] using rev_ind; [reflexivity|].
  now rewrite rev_unit, last_snoc.
Qed.

Lemma last_rev {A} (l : list A) : last (rev l) = head l.
Proof. rewrite <- head_rev. now rewrite rev_involutive. Qed.

Lemma lstrip_suffix (p : ascii -> bool) (l : list ascii) :
  exists pre, l = pre ++ lstrip p l.
Proof.
  induction l as [|c r [pre IH]]; cbn; [now exists []|].
  destruct (p c); [|now exists []].
  exists (c :: pre). cbn. now f_equal.
Qed.

Lemma lstrip_head (p : ascii -> bool) (l : list ascii) (c : ascii) :
  head (lstrip p l) = Some c -> p c = false.
Proof.
  induction l as [|a r IH]; cbn; [discriminate|].
  destruct (p a) eqn:E; [exact IH|]. cbn. congruence.
Qed.

Lemma lstrip_last (p : ascii -> bool) (l : list ascii) (c : ascii) :
  last (lstrip p l) = Some c -> last l = Some c.
Proof.
  destruct (lstrip_suffix p l) as [pre E]. intros Hl.
  rewrite E, last_app, Hl. reflexivity.
Qed.

Lemma lstrip_fixed (p : ascii -> bool) (l : list ascii) :
  (forall c, head l = Some c -> p c = false) -> lstrip p l = l.
Proof.
  destruct l as [|a r]; cbn; [reflexivity|].
  intros Hh. now rewrite (Hh a eq_refl).
Qed.

Lemma lstrip_Forall (P : ascii -> Prop) (p : ascii -> bool) (l : list ascii) :
  Forall P l -> Forall P (lstrip p l).
Proof.
  destruct (lstrip_suffix p l) as [pre E]. intros Hl.
  rewrite E in Hl. now apply Forall_app in Hl as [_ ?].
Qed.

Lemma strip_Forall (P : ascii -> Prop) (p : ascii -> bool) (l : list ascii) :
  Forall P l -> Forall P (strip p l).
Proof.
  intros Hl. unfold strip.
  apply Forall_rev, lstrip_Forall, Forall_rev, lstrip_Forall, Hl.
Qed.

Lemma strip_head (p : ascii -> bool) (l : list ascii) (c : ascii) :
  head (strip p l) = Some c -> p c = false.
Proof.
  unfold strip. rewrite head_rev. intros Hl.
  apply lstrip_last in Hl. rewrite last_rev in Hl.
  now apply lstrip_head in Hl.
Qed.

Lemma strip_last (p : ascii -> bool) (l : list ascii) (c : ascii) :
  last (strip p l) = Some c -> p c = false.
Proof. unfold strip. rewrite last_rev. apply lstrip_head. Qed.

Lemma strip_fixed (p : ascii -> bool) (l : list ascii) :
  (forall c, head l = Some c -> p c = false) ->
  (forall c, last l = Some c -> p c = false) ->
  strip p l = l.
Proof.
  intros Hh Hl. unfold strip. rewrite (lstrip_fixed p l Hh).
  rewrite lstrip_fixed; [apply rev_involutive|].
  intros c. rewrite head_rev. apply Hl.
Qed.

Lemma collapse_slug (b : bool) (l : list ascii) :
  Forall (fun c => is_word c || is_space c || is_hyphen c = true
                   /\ is_upper c = false) l ->
  Forall (fun c => slug_char c = true) (collapse b l).
Proof.
  intros Hl. revert b.
  induction Hl as [|c r [Hk Hu] _ IH]; intros b; cbn; [constructor|].
  destruct (is_space c || is_hyphen c) eqn:E.
  - destruct b; [apply IH|]. constructor; [reflexivity | apply IH].
  - constructor; [|apply IH]. unfold slug_char. rewrite Hu.
    destruct (is_word c); [reflexivity|]. cbn in Hk. congruence.
Qed.

Lemma collapse_fixed (l : list ascii) :
  Forall (fun c => slug_char c = true) l -> collapse false l = l.
Proof.
  induction 1 as [|c r Hc _ IH]; cbn; [reflexivity|].
  now rewrite (slug_char_not_sep c Hc), IH.
Qed.

Lemma lower_not_upper (c : ascii) : is_upper (lower c) = false.
Proof. all_chars c. Qed.

Lemma string_of_list_nonempty (l : list ascii) :
  l <> [] -> String.eqb (string_of_list_ascii l) "" = false.
Proof. destruct l; [congruence | reflexivity]. Qed.

(** What [normalize_keyword] returns is a slug. *)
Lemma normalize_keyword_slug (keyword k : string) :
  normalize_keyword keyword = Some k ->
  exists l, k = string_of_list_ascii l /\ is_slug l.
Proof.
  unfold normalize_keyword.
  destruct (String.eqb keyword ""); [discriminate|].
  set (l1 := map lower (strip is_space (list_ascii_of_string keyword))).
  destruct l1 as [|c1 r1] eqn:E1; [discriminate|]. rewrite <- E1. clear E1 c1 r1.
  set (l2 := filter _ l1).
  set (l4 := strip is_underscore (collapse false l2)).
  destruct l4 as [|c4 r4] eqn:E4; [discriminate|]. rewrite <- E4.
  intros [= <-]. exists l4. split; [reflexivity|].
  split; [rewrite E4; discriminate|].
  split; [|split; intros c; subst l4; [apply strip_head | apply strip_last]].
  subst l4. apply strip_Forall, collapse_slug.
  subst l2. apply Forall_forall. intros c Hc.
  apply list_elem_of_filter in Hc as [Hk Hin].
  split; [now apply Is_true_true|].
  subst l1. apply list_elem_of_fmap in Hin as (c0 & -> & _).
  apply lower_not_upper.
Qed.

Lemma normalize_slug (l : list ascii) :
  is_slug l ->
  normalize_keyword (string_of_list_ascii l) = Some (string_of_list_ascii l).
Proof.
  intros (Hne & Hall & Hhead & Hlast). unfold normalize_keyword.
  rewrite (string_of_list_nonempty l Hne), list_ascii_of_string_of_list_ascii.
  assert (Hs : strip is_space l = l).
  { apply strip_fixed; intros c Hc; apply slug_char_not_space;
      rewrite Forall_forall in Hall; apply Hall.
    - destruct l; [discriminate|]. injection Hc as ->. left.
    - now apply last_Some_elem_of. }
  rewrite Hs.
  assert (Hl : map lower l = l).
  { clear -Hall. induction Hall as [|c r Hc _ IH]; cbn; [reflexivity|].
    now rewrite (slug_char_lower c Hc), IH. }
  rewrite Hl.
  destruct l as [|c0 r0] eqn:El; [congruence|]. rewrite <- El in *.
  assert (Hf : filter (fun c => is_word c || is_space c || is_hyphen c) l = l).
  { clear -Hall. induction Hall as [|c r Hc _ IH]; [reflexivity|].
    rewrite filter_cons_True by (apply Is_true_true, slug_char_kept, Hc).
    now rewrite IH. }
  rewrite Hf, (collapse_fixed l Hall), (strip_fixed is_underscore l Hhead Hlast).
  now rewrite El.
Qed.


End KeywordFacts.

Section KeywordListFacts.
Import Matcher Keywords.

Lemma normalize_loop_inv (n : Z) (keywords acc : list string) (seen : gset string) :
  (forall k, k ∈ seen <-> k ∈ acc) ->
  NoDup acc ->
  Forall (fun k => exists kw, normalize_keyword kw = Some k) acc ->
  (Z.of_nat (length acc) < Z.max 1 n)%Z ->
  let r := normalize_loop n acc seen keywords in
  NoDup r
  /\ Forall (fun k => exists kw, normalize_keyword kw = Some k) r
  /\ (Z.of_nat (length r) <= Z.max 1 n)%Z.
Proof.
  revert acc seen.
  induction keywords as [|kw rest IH]; intros acc seen Hseen Hnd Hall Hlen; cbn.
  - repeat split; [assumption.. | lia].
  - destruct (normalize_keyword kw) as [k|] eqn:Ek; [|now apply IH].
    destruct (bool_decide (k ∈ seen)) eqn:Es; [now apply IH|].
    apply bool_decide_eq_false in Es.
    assert (Hnd' : NoDup (acc ++ [k])).
    { apply NoDup_app. split; [assumption|]. split; [|apply NoDup_singleton].
      intros x Hx ->%list_elem_of_singleton. apply Es, Hseen, Hx. }
    assert (Hall' : Forall (fun k => exists kw, normalize_keyword kw = Some k) (acc ++ [k])).
    { apply Forall_app. split; [assumption|]. constructor; [eauto | constructor]. }
    assert (Hlen' : length (acc ++ [k]) = S (length acc))
      by (rewrite length_app; cbn; lia).
    destruct (n <=? Z.of_nat (length (acc ++ [k])))%Z eqn:En.
    + repeat split; [assumption.. | lia].
    + apply IH; [|assumption..|lia].
      intros x. rewrite elem_of_union, elem_of_singleton, elem_of_app,
        list_elem_of_singleton, Hseen. tauto.
Qed.

Lemma normalize_loop_fixed (n : Z) (rest acc : list string) (seen : gset string) :
  (forall k, k ∈ seen <-> k ∈ acc) ->
  NoDup (acc ++ rest) ->
  Forall (fun k => normalize_keyword k = Some k) rest ->
  (Z.of_nat (length (acc ++ rest)) <= Z.max 1 n)%Z ->
  normalize_loop n acc seen rest = acc ++ rest.
Proof.
  revert acc seen.
  induction rest as [|k rest IH]; intros acc seen Hseen Hnd Hall Hlen; cbn.
  - now rewrite app_nil_r.
  - apply Forall_cons in Hall as [Hk Hall]. rewrite Hk.
    assert (Es : k ∉ seen).
    { rewrite Hseen. apply NoDup_app in Hnd as (_ & Hdis & _).
      intros Hin. apply (Hdis k Hin). left. }
    rewrite (bool_decide_eq_false_2 _ Es).
    rewrite (cons_middle k acc rest), app_assoc in Hnd, Hlen |- *.
    assert (Hl : length (acc ++ [k]) = S (length acc))
      by (rewrite length_app; cbn; lia).
    destruct (n <=? Z.of_nat (length (acc ++ [k])))%Z eqn:En.
    + rewrite length_app in Hlen. destruct rest; [now rewrite app_nil_r|].
      cbn in Hlen. lia.
    + apply IH; [|assumption..].
      intros x. rewrite elem_of_union, elem_of_singleton, elem_of_app,
        list_elem_of_singleton, Hseen. tauto.
Qed.

(** X16.  [normalize_keywords] returns distinct normalised keywords, at most
    [max(1, max_count)] of them (the cap is tested only after a keyword
    has been appended, so a cap of 0 or less still lets one through), and
    it is idempotent: normalising its own result changes nothing. *)
Theorem normalize_keywords_contract (keywords : list string) (max_count : Z) :
  let r := normalize_keywords keywords max_count in
  NoDup r
  /\ (Z.of_nat (length r) <= Z.max 1 max_count)%Z
  /\ Forall (fun k => normalize_keyword k = Some k) r
  /\ normalize_keywords r max_count = r.
Proof.
  assert (Hinv :
    let r := normalize_keywords keywords max_count in
    NoDup r /\ Forall (fun k => exists kw, normalize_keyword kw = Some k) r
    /\ (Z.of_nat (length r) <= Z.max 1 max_count)%Z).
  { unfold normalize_keywords. destruct keywords as [|kw rest].
    - cbn. repeat split; [constructor.. | lia].
    - apply normalize_loop_inv; [set_solver | constructor | constructor | cbn; lia]. }
  cbn zeta in *. destruct Hinv as (Hnd & Hall & Hlen).
  assert (Hfix : Forall (fun k => normalize_keyword k = Some k)
                   (normalize_keywords keywords max_count)).
  { eapply Forall_impl; [exact Hall|]. cbn. intros k [kw Hk].
    destruct (normalize_keyword_slug kw k Hk) as (l & -> & Hslug).
    now apply normalize_slug. }
  repeat split; try assumption.
  generalize dependent (normalize_keywords keywords max_count). intros r Hnd _ Hlen Hfix.
  unfold normalize_keywords. destruct r as [|k r]; [reflexivity|].
  now apply (normalize_loop_fixed max_count (k :: r) [] ∅); [set_solver|..].
Qed.

End KeywordListFacts.

(* ================================================================== *)
(** * Further properties of the keyword matcher *)
(* ================================================================== *)

Section MatchFacts.
Context `{Builtins}.
Local Open Scope Q_scope.
Import Matcher MatcherSpec.

Lemma calculate_keyword_match_some (student : dict) (kw : string)
    (keywords mandatory_keywords : list string) :
  student <> ∅ ->
  exists r,
    calculate_keyword_match student (kw :: keywords) mandatory_keywords = Some r
    /\ matched_keywords r
       = filter (fun k => _check_keyword_match k (student_keywords student) = true)
           (kw :: keywords)
    /\ unmatched_keywords r
       = filter (fun k => _check_keyword_match k (student_keywords student) <> true)
           (kw :: keywords)
    /\ total_keywords r = length (kw :: keywords)
    /\ match_pct r
       = clamp01
           (Qnat (length
                    (filter (fun k => _check_keyword_match k (student_keywords student) = true)
                       (kw :: keywords)))
            / Qnat (length (kw :: keywords)))
    /\ mandatory_matched r
       = match mandatory_keywords with
         | [] => true
         | _ =>
             (length
                (filter (fun k => _check_keyword_match k (student_keywords student) = true)
                   (omap normalize_keyword mandatory_keywords))
              =? length mandatory_keywords)%nat
         end
    /\ mandatory_unmatched_keywords r
       = filter (fun k => _check_keyword_match k (student_keywords student) <> true)
           (omap normalize_keyword mandatory_keywords).
Proof.
  intros Hs. unfold calculate_keyword_match.
  rewrite (bool_decide_eq_false_2 _ Hs). eexists. split; [reflexivity|].
  repeat split.
Qed.

Lemma filter_complement_length {A} (P : A -> Prop) `{!forall x, Decision (P x)}
    (l : list A) :
  (length (filter P l) + length (filter (fun x => ~ P x) l) = length l)%nat.
Proof.
  induction l as [|x l IH]; [reflexivity|].
  destruct (decide (P x)) as [Hx | Hx].
  - rewrite (filter_cons_True P x l Hx), filter_cons_False by tauto. cbn. lia.
  - rewrite (filter_cons_False P x l Hx), filter_cons_True by tauto. cbn. lia.
Qed.

(** X17.  The matched and unmatched lists split the job keywords: each keyword
    goes to exactly one of them, both keep the order of the keyword list,
    and their lengths add up to [total_keywords].  [match_pct] lies in
    [[0,1]]; it is 1 exactly when nothing is unmatched. *)
Theorem matched_and_unmatched_partition (student : dict)
    (keywords mandatory_keywords : list string) :
  student <> ∅ -> keywords <> [] ->
  exists r,
    calculate_keyword_match student keywords mandatory_keywords = Some r
    /\ matched_keywords r ++ unmatched_keywords r ≡ₚ keywords
    /\ sublist (matched_keywords r) keywords
    /\ sublist (unmatched_keywords r) keywords
    /\ (forall k, k ∈ matched_keywords r -> k ∉ unmatched_keywords r)
    /\ (length (matched_keywords r) + length (unmatched_keywords r)
        = total_keywords r)%nat
    /\ 0 <= match_pct r <= 1
    /\ (match_pct r == 1 <-> unmatched_keywords r = []).
Proof.
  intros Hs Hk. destruct keywords as [|kw keywords]; [congruence|].
  destruct (calculate_keyword_match_some student kw keywords mandatory_keywords Hs)
    as (r & E & Hm & Hu & Ht & Hpct & _ & _).
  exists r. split; [exact E|]. rewrite Hm, Hu, Ht, Hpct. clear Hpct.
  set (P := fun k => _check_keyword_match k (student_keywords student) = true).
  assert (Hlen :
    (length (filter P (kw :: keywords))
     + length (filter (fun k => _check_keyword_match k (student_keywords student) <> true)
                 (kw :: keywords))
     = length (kw :: keywords))%nat)
    by apply (filter_complement_length P).
  assert (Hpct : clamp01 (Qnat (length (filter P (kw :: keywords)))
                          / Qnat (length (kw :: keywords)))
                 == Qnat (length (filter P (kw :: keywords)))
                    / Qnat (length (kw :: keywords))).
  { apply clamp_inside, ratio_in_unit; [apply length_filter | cbn; lia]. }
  split; [apply filter_app_complement|].
  split; [apply sublist_filter|]. split; [apply sublist_filter|].
  split; [intros k [Hp _]%list_elem_of_filter [Hn _]%list_elem_of_filter; tauto|].
  split; [exact Hlen|].
  assert (Hn : 0 < Qnat (length (kw :: keywords))) by (apply Qnat_pos; cbn; lia).
  pose proof (ratio_in_unit (length (filter P (kw :: keywords))) (length (kw :: keywords))
                (length_filter P _) ltac:(cbn; lia)) as Hr.
  split; [rewrite Hpct; exact Hr|].
  rewrite Hpct. split.
  - intros H1.
    assert (Heq : Qnat (length (filter P (kw :: keywords)))
                  == Qnat (length (kw :: keywords))).
    { rewrite <- (Qmult_1_l (Qnat (length (kw :: keywords)))), <- H1. field. lra. }
    unfold Qnat in Heq. apply (proj1 (inject_Z_injective _ _)) in Heq.
    apply length_zero_iff_nil. lia.
  - intros Hnil. rewrite Hnil in Hlen. cbn [length] in Hlen.
    rewrite Nat.add_0_r in Hlen. rewrite Hlen.
    unfold Qdiv. apply Qmult_inv_r. lra.
Qed.

Lemma filter_omap_full {A B} (f : A -> option B) (P : B -> Prop)
    `{!forall y, Decision (P y)} (l : list A) :
  (length (filter P (omap f l)) <= length l)%nat
  /\ (length (filter P (omap f l)) = length l
      <-> Forall (fun x => exists y, f x = Some y /\ P y) l).
Proof.
  induction l as [|x l [IHle IHeq]]; cbn.
  - split; [lia|]. split; [constructor | reflexivity].
  - destruct (f x) as [y|] eqn:E.
    + destruct (decide (P y)) as [Hy | Hy].
      * rewrite (filter_cons_True P y _ Hy). cbn. split; [lia|].
        rewrite Forall_cons. split.
        -- intros Hl. split; [eauto|]. apply IHeq. lia.
        -- intros [_ Hl]. apply IHeq in Hl. lia.
      * rewrite (filter_cons_False P y _ Hy). split; [lia|].
        rewrite Forall_cons. split; [lia|].
        intros [(y' & Hfy & Hy') _]. rewrite E in Hfy. injection Hfy as <-. tauto.
    + split; [lia|]. rewrite Forall_cons. split; [lia|].
      intros [(y' & Hfy & _) _]. congruence.
Qed.

(** X18.  [mandatory_matched] holds exactly when every mandatory keyword
    normalises to a keyword that the candidate matches.  A mandatory
    keyword that normalises to nothing is counted in
    [len(mandatory_keywords)] but in neither mandatory list, so it makes
    [mandatory_matched] false for every candidate. *)
Theorem mandatory_matched_iff_all_match (student : dict)
    (keywords mandatory_keywords : list string) :
  student <> ∅ -> keywords <> [] ->
  exists r,
    calculate_keyword_match student keywords mandatory_keywords = Some r
    /\ (mandatory_matched r = true
        <-> Forall (fun mkw =>
                      exists k, normalize_keyword mkw = Some k
                                /\ _check_keyword_match k (student_keywords student) = true)
              mandatory_keywords)
    /\ ((exists mkw, mkw ∈ mandatory_keywords /\ normalize_keyword mkw = None) ->
        mandatory_matched r = false).
Proof.
  intros Hs Hk. destruct keywords as [|kw keywords]; [congruence|].
  destruct (calculate_keyword_match_some student kw keywords mandatory_keywords Hs)
    as (r & E & _ & _ & _ & _ & Hm & _).
  exists r. split; [exact E|].
  assert (Hiff : mandatory_matched r = true
        <-> Forall (fun mkw =>
                      exists k, normalize_keyword mkw = Some k
                                /\ _check_keyword_match k (student_keywords student) = true)
              mandatory_keywords).
  { rewrite Hm. destruct mandatory_keywords as [|mkw rest] eqn:El.
    - split; [constructor | reflexivity].
    - rewrite <- El. rewrite Nat.eqb_eq.
      apply (filter_omap_full normalize_keyword
               (fun k => _check_keyword_match k (student_keywords student) = true)). }
  split; [exact Hiff|].
  intros (mkw & Hin & Hnone). apply not_true_is_false. rewrite Hiff.
  rewrite Forall_forall. intros Hall. destruct (Hall mkw Hin) as (k & Hk' & _).
  congruence.
Qed.

(** X19.  A candidate with more tags never loses a match: if a keyword matches
    against a set of candidate keywords, it matches against every larger
    set. *)
Theorem more_tags_never_lose_a_match (keyword : string) (tags tags' : gset string) :
  tags ⊆ tags' ->
  _check_keyword_match keyword tags = true ->
  _check_keyword_match keyword tags' = true.
Proof.
  intros Hsub. rewrite !check_keyword_match_rule.
  intros [Hin | (fields & Hmap & field & Hf & Hin)].
  - left. now apply Hsub.
  - right. exists fields. split; [exact Hmap|]. exists field. split; [exact Hf|].
    now apply Hsub.
Qed.

End MatchFacts.

(* ================================================================== *)
(** * Qualification, job requests and the matching pipeline *)
(* ================================================================== *)

Section PipelineFacts.
Context `{Builtins}.
Local Open Scope Q_scope.
Import Matcher MatcherSpec Ranker RankerSpec JobProfile.

Lemma match_dict_nonempty (m : MatchResult) : match_dict m <> ∅.
Proof.
  intros E. assert (Hl : match_dict m !! "match_pct" = None) by now rewrite E.
  discriminate Hl.
Qed.

Lemma is_qualified_match_dict (m : MatchResult) (thr : Q) :
  is_qualified (match_dict m) thr
  = Ok (VBool (Qle_bool thr (match_pct m) && mandatory_matched m)).
Proof.
  unfold is_qualified.
  rewrite (bool_decide_eq_false_2 _ (match_dict_nonempty m)).
  change (float_field (match_dict m) "match_pct") with (@Ok Q (match_pct m)).
  change (get_or (match_dict m) "mandatory_matched" (VBool false))
    with (VBool (mandatory_matched m)).
  cbn. now destruct (Qle_bool thr (match_pct m)).
Qed.



Lemma py_int_inject (z : Z) : py_int (inject_Z z) = z.
Proof. unfold py_int. destruct (Qltb _ _); [apply Qceiling_Z | apply Qfloor_Z]. Qed.

Lemma usable_id_int (r : dict) (z : Z) :
  get r "student_id" = VInt z -> int_too_large z = false -> usable_id r = Some z.
Proof.
  intros Hg Hz. unfold usable_id, Scoring.safe_int, Scoring.safe_float.
  rewrite Hg, Hz. cbn. now rewrite py_int_inject.
Qed.

Lemma request_loop_spec (j : string) (l : list dict) (reqs : list JobRequest) :
  request_loop j l = Ok reqs ->
  map request_student_id reqs = omap usable_id l
  /\ Forall (fun q => job_id q = j /\ status q = "PENDING") reqs
  /\ Forall (fun r => convertible (get r "student_id") = true) l.
Proof.
  revert reqs. induction l as [|r rest IH]; intros reqs; cbn.
  - intros [= <-]. repeat split; constructor.
  - unfold usable_id at 1.
    destruct (Scoring.safe_int (get r "student_id") None) as [[id |] | e] eqn:Eid;
      cbn; [| |discriminate].
    + destruct (float_field r "keyword_match_pct") as [k | e]; cbn; [|discriminate].
      destruct (request_loop j rest) as [reqs' | e]; cbn; [|discriminate].
      intros [= <-]. destruct (IH reqs' eq_refl) as (Hids & Hall & Hconv).
      cbn. split; [now f_equal|]. split; [now constructor|].
      constructor; [|exact Hconv].
      destruct (convertible (get r "student_id")) eqn:Ec; [reflexivity|].
      unfold convertible in Ec. destruct (get r "student_id"); try discriminate.
      apply negb_false_iff in Ec. unfold Scoring.safe_int, Scoring.safe_float in Eid.
      rewrite Ec in Eid. discriminate.
    + intros Hr. destruct (IH reqs Hr) as (Hids & Hall & Hconv).
      split; [exact Hids|]. split; [exact Hall|].
      constructor; [|exact Hconv].
      destruct (convertible (get r "student_id")) eqn:Ec; [reflexivity|].
      unfold convertible in Ec. destruct (get r "student_id"); try discriminate.
      apply negb_false_iff in Ec. unfold Scoring.safe_int, Scoring.safe_float in Eid.
      rewrite Ec in Eid. discriminate.
Qed.

(** X21.  When [generate_job_requests] returns, it has made one request for
    each record that carries a usable [student_id], in the order of the
    records; every request has status [PENDING] and the same job id: the
    one passed in, or the fresh identifier when none (or an empty one)
    was passed. *)
Theorem generate_job_requests_contract (uuid4 : string) (students : list dict)
    (j : option string) (reqs : list JobRequest) :
  generate_job_requests uuid4 students j = Ok reqs ->
  map request_student_id reqs = omap usable_id students
  /\ (length reqs <= length students)%nat
  /\ Forall (fun q => status q = "PENDING") reqs
  /\ (forall id, j = Some id -> id <> "" -> Forall (fun q => job_id q = id) reqs)
  /\ (j = None \/ j = Some "" -> Forall (fun q => job_id q = uuid4) reqs).
Proof.
  unfold generate_job_requests. intros Hr.
  destruct students as [|r rest].
  { injection Hr as <-. cbn. repeat split; try constructor; try lia. }
  set (j' := match j with
             | Some j0 => if String.eqb j0 "" then uuid4 else j0
             | None => uuid4
             end) in Hr.
  destruct (request_loop_spec j' (r :: rest) reqs Hr) as (Hids & Hall & _).
  split; [exact Hids|].
  split.
  { rewrite <- (length_map request_student_id reqs), Hids.
    clear. induction (r :: rest) as [|x l IH]; cbn; [lia|].
    destruct (usable_id x); cbn; lia. }
  split; [eapply Forall_impl; [exact Hall|]; now intros q [_ ?]|].
  split.
  - intros id -> Hid. eapply Forall_impl; [exact Hall|]. intros q [Hq _].
    rewrite Hq. subst j'. apply String.eqb_neq in Hid. now rewrite Hid.
  - intros Hj. eapply Forall_impl; [exact Hall|]. intros q [Hq _].
    rewrite Hq. subst j'. now destruct Hj as [-> | ->].
Qed.

Lemma qualify_spec (students : list dict) (kws mand : list string) (raw : list dict) :
  qualify students kws mand = Ok raw ->
  Forall (fun r => exists id m gs,
            r = qualified_record id m gs /\ 0.75 <= match_pct m) raw.
Proof.
  revert raw. induction students as [|student rest IH]; intros raw; cbn [qualify].
  - intros [= <-]. constructor.
  - destruct (bool_decide (student = ∅)); [apply IH|].
    destruct (Scoring.safe_int (get student "student_id") None) as [[id |] | e];
      cbn [result_bind]; [|apply IH | discriminate].
    destruct (calculate_keyword_match student kws mand) as [m|]; [|apply IH].
    rewrite is_qualified_match_dict. cbn [result_bind truthy].
    destruct (Qle_bool 0.75 (match_pct m)) eqn:Ele; cbn [andb]; [|apply IH].
    destruct (mandatory_matched m); [|apply IH].
    destruct (float_field student "general_score") as [gs | e];
      cbn [result_bind]; [|discriminate].
    destruct (qualify rest kws mand) as [raw' | e]; cbn [result_bind]; [|discriminate].
    intros [= <-]. constructor; [|now apply IH].
    exists id, m, gs. split; [reflexivity|]. now apply Qle_bool_iff.
Qed.

Lemma qualified_record_floats (id : Z) (m : MatchResult) (gs : Q) :
  holds_floats (qualified_record id m gs).
Proof. exists gs, (match_pct m). split; reflexivity. Qed.

Lemma holds_floats_convertible (r : dict) :
  holds_floats r ->
  convertible (get r "general_score") = true
  /\ convertible (get r "keyword_match_pct") = true.
Proof. intros (g & k & Hg & Hk). unfold get. now rewrite Hg, Hk. Qed.

Lemma coerce_scores_floats (l : list dict) :
  Forall holds_floats l -> coerce_scores l = (Ok tt, l).
Proof.
  induction 1 as [|r rest Hr _ IH]; cbn; [reflexivity|].
  destruct (holds_floats_convertible r Hr) as [Hg Hk].
  rewrite (float_field_score r _ Hg), (float_field_score r _ Hk), IH.
  fold (coerced r). now rewrite (coerced_id r Hr).
Qed.

Lemma build_ranking_ids (n : nat) (l : list dict) (es : list RankingEntry) :
  build_ranking n l = Ok es ->
  Forall (fun r => convertible (get r "student_id") = true) l.
Proof.
  revert n es. induction l as [|r rest IH]; intros n es; cbn; [constructor|].
  destruct (Scoring.safe_int (get r "student_id") None) as [[id |] | e] eqn:Eid;
    cbn; [| |discriminate].
  - destruct (float_field r "keyword_match_pct") as [k | e]; cbn; [|discriminate].
    destruct (float_field r "general_score") as [g | e]; cbn; [|discriminate].
    destruct (build_ranking (S n) rest) as [es' | e] eqn:Er; cbn; [|discriminate].
    intros _. constructor; [|now apply (IH (S n) es')].
    destruct (convertible (get r "student_id")) eqn:Ec; [reflexivity|].
    unfold convertible in Ec. destruct (get r "student_id"); try discriminate.
    apply negb_false_iff in Ec. unfold Scoring.safe_int, Scoring.safe_float in Eid.
    rewrite Ec in Eid. discriminate.
  - intros Hr. constructor; [|now apply (IH (S n) es)].
    destruct (convertible (get r "student_id")) eqn:Ec; [reflexivity|].
    unfold convertible in Ec. destruct (get r "student_id"); try discriminate.
    apply negb_false_iff in Ec. unfold Scoring.safe_int, Scoring.safe_float in Eid.
    rewrite Ec in Eid. discriminate.
Qed.

(** On records that hold floats, a call of [rank_students] that returns
    has met only usable identifiers and has left the records as they were. *)
Lemma rank_students_on_floats (l : list dict) (d : Rankings) (store : list dict) :
  Forall holds_floats l ->
  rank_students l = (Ok d, store) ->
  Forall (fun r => well_formed r = true) l
  /\ store = l
  /\ Ranker.general_ranking d = ranked_entries 1 (ordered_by "general_score" l)
  /\ Ranker.job_specific_ranking d = ranked_entries 1 (ordered_by "keyword_match_pct" l).
Proof.
  intros Hl Hr.
  assert (Hmap : map coerced l = l).
  { clear Hr. induction Hl as [|r rest Hr _ IH]; cbn; [reflexivity|].
    now rewrite (coerced_id r Hr), IH. }
  assert (Hwf : Forall (fun r => well_formed r = true) l).
  { destruct l as [|r0 rest]; [constructor|].
    unfold rank_students in Hr. rewrite (coerce_scores_floats _ Hl) in Hr.
    rewrite sorted_by_total in Hr
      by (eapply Forall_impl; [exact Hl|]; intros r Hf;
          apply (holds_floats_convertible r Hf)).
    rewrite sorted_by_total in Hr
      by (eapply Forall_impl; [exact Hl|]; intros r Hf;
          apply (holds_floats_convertible r Hf)).
    cbn [result_bind] in Hr.
    destruct (build_ranking 1 (ordered_by "general_score" (r0 :: rest)))
      as [g | e] eqn:Eg; [|discriminate].
    apply build_ranking_ids in Eg.
    apply (Permutation_Forall (ordered_by_perm _ _)) in Eg.
    apply Forall_forall. intros r Hin. unfold well_formed.
    rewrite Forall_forall in Eg, Hl.
    destruct (holds_floats_convertible r (Hl r Hin)) as [-> ->].
    now rewrite (Eg r Hin). }
  rewrite (rank_students_total l Hwf), Hmap in Hr.
  injection Hr as <- <-. now repeat split.
Qed.

Lemma omap_all_some {A B} (f : A -> option B) (l : list A) :
  Forall (fun x => is_Some (f x)) l -> length (omap f l) = length l.
Proof.
  induction 1 as [|x l [y Hy] _ IH]; cbn; [reflexivity|].
  rewrite Hy. cbn. now rewrite IH.
Qed.

(** The outputs of the [try] block of [process_job_profile]. *)
Lemma process_job_profile_try_spec (provider : GeminiProvider) (uuid4 jd : string)
    (students : list dict) (out : JobOutput) :
  process_job_profile_try provider uuid4 jd students = Ok out ->
  JobProfileSpec.well_ranked uuid4 out
  /\ JobProfile.warnings out = []
  /\ (JobProfile.errors out = []
      \/ out = _get_default_output []
                 ["Job keyword extraction failed. Manual keywords required."]).
Proof.
  assert (Hdefault : forall w e,
             JobProfileSpec.well_ranked uuid4 (_get_default_output w e)).
  { intros w e. unfold JobProfileSpec.well_ranked. cbn.
    repeat split; constructor. }
  unfold process_job_profile_try.
  destruct (has_key provider); cbn [negb];
    [|intros [= <-]; split; [apply Hdefault | split; [reflexivity | now right]]].
  destruct (extract_keywords provider jd) as [[[role raw_kws] raw_mand] |];
    [|intros [= <-]; split; [apply Hdefault | split; [reflexivity | now right]]].
  destruct (Keywords.normalize_keywords raw_kws 25) as [|kw kws] eqn:Ekws;
    [intros [= <-]; split; [apply Hdefault | split; [reflexivity | now right]]|].
  destruct (qualify students (kw :: kws) (Keywords.normalize_keywords raw_mand 10))
    as [raw | e] eqn:Eq; cbn [result_bind]; [|discriminate].
  pose proof (qualify_spec _ _ _ _ Eq) as Hq.
  assert (Hfloats : Forall holds_floats raw).
  { eapply Forall_impl; [exact Hq|]. intros r (id & m & gs & -> & _).
    apply qualified_record_floats. }
  destruct (rank_students raw) as [[d | e] store] eqn:Er; cbn [result_bind];
    [|discriminate].
  destruct (rank_students_on_floats raw d store Hfloats Er) as (Hwf & -> & Hg & Hj).
  destruct (generate_job_requests uuid4 raw (Some uuid4)) as [reqs | e] eqn:Ereq;
    cbn [result_bind]; [|discriminate].
  intros [= <-]. split; [|split; [reflexivity | now left]].
  assert (Hids : Forall (fun r => is_Some (usable_id r)) raw).
  { rewrite Forall_forall in Hq, Hwf |- *. intros r Hin.
    destruct (Hq r Hin) as (id & m & gs & -> & _).
    specialize (Hwf _ Hin). apply well_formed_fields in Hwf as (Hid & _ & _).
    exists id. apply usable_id_int; [reflexivity|].
    change (get (qualified_record id m gs) "student_id") with (VInt id) in Hid.
    now apply negb_true_iff in Hid. }
  assert (Hreqs : length reqs = length raw /\
                  Forall (fun q => status q = "PENDING" /\ job_id q = uuid4) reqs).
  { unfold generate_job_requests in Ereq. destruct raw as [|r0 rest].
    - injection Ereq as <-. split; [reflexivity | constructor].
    - assert (Ej : (if String.eqb uuid4 "" then uuid4 else uuid4) = uuid4)
        by now destruct (String.eqb uuid4 "").
      rewrite Ej in Ereq.
      destruct (request_loop_spec uuid4 (r0 :: rest) reqs Ereq) as (Hm & Hall & _).
      split.
      + rewrite <- (length_map request_student_id reqs), Hm. now apply omap_all_some.
      + eapply Forall_impl; [exact Hall|]. cbn. tauto. }
  destruct Hreqs as [Hlen Hpending].
  assert (Hids' : forall field, Forall (fun r => is_Some (usable_id r)) (ordered_by field raw)).
  { intros field. eapply Permutation_Forall; [symmetry; apply ordered_by_perm | exact Hids]. }
  assert (Hlen' : forall field, length (ordered_by field raw) = length raw).
  { intros field. apply Permutation_length, ordered_by_perm. }
  unfold JobProfileSpec.well_ranked. cbn. rewrite Hg, Hj, Hlen.
  split; [rewrite <- (Hlen' "general_score"); now apply ranked_entries_consecutive|].
  split; [rewrite <- (Hlen' "keyword_match_pct"); now apply ranked_entries_consecutive|].
  split.
  { rewrite !ranked_entries_unranked.
    etransitivity; [apply candidates_perm, ordered_by_perm|].
    symmetry. apply candidates_perm, ordered_by_perm. }
  split.
  { eapply ranked_entries_descending; [|apply ordered_by_sorted].
    intros m0 r e E. apply (entry_of_keys m0 r e E). }
  split.
  { eapply ranked_entries_descending; [|apply ordered_by_sorted].
    intros m0 r e E. apply (entry_of_keys m0 r e E). }
  split; [|exact Hpending].
  eapply (ranked_entries_Forall
            (fun r => 0.75 <= score (get r "keyword_match_pct"))).
  - intros r m0 e Hr E. destruct (entry_of_keys m0 r e E) as [_ ->]. exact Hr.
  - eapply Permutation_Forall; [symmetry; apply ordered_by_perm|].
    eapply Forall_impl; [exact Hq|]. intros r (id & m & gs & -> & Hle). exact Hle.
Qed.

(** X22.  Whatever the provider returns and whatever the records hold,
    [process_job_profile] hands back a well-formed ranking: both views
    list the same candidates with the ranks [1, 2, ..., n], [n] being the
    number of job requests; each view is in descending order of its key;
    every ranked candidate has a match share of at least 0.75; and every
    request is [PENDING] under the job's identifier. *)
Theorem process_job_profile_ranks_consecutively (provider : GeminiProvider)
    (uuid4 job_description : string) (students : list dict) :
  JobProfileSpec.well_ranked uuid4
    (process_job_profile provider uuid4 job_description students).
Proof.
  assert (Hdefault : forall w e,
             JobProfileSpec.well_ranked uuid4 (_get_default_output w e)).
  { intros w e. unfold JobProfileSpec.well_ranked. cbn.
    repeat split; constructor. }
  unfold process_job_profile.
  destruct (String.eqb job_description ""); [apply Hdefault|].
  destruct students as [|s0 rest]; [apply Hdefault|].
  destruct (process_job_profile_try provider uuid4 job_description (s0 :: rest))
    as [out | e] eqn:E; [|apply Hdefault].
  now apply process_job_profile_try_spec in E.
Qed.

(** X23.  [process_job_profile] fails safe: its output is either a clean result
    with no warning and no error, or exactly the default output (role
    [Unknown], no keywords, empty rankings, no requests) carrying a single
    message.  An empty job description gives an error, an empty candidate
    list (Scenario D) a warning and no error, and a missing key or a
    failed extraction an error. *)
Theorem process_job_profile_fails_safe (provider : GeminiProvider)
    (uuid4 job_description : string) (students : list dict) :
  let out := process_job_profile provider uuid4 job_description students in
  ((JobProfile.warnings out = [] /\ JobProfile.errors out = [])
   \/ (exists msg, out = _get_default_output [msg] [])
   \/ (exists msg, out = _get_default_output [] [msg]))
  /\ (job_description = "" ->
      out = _get_default_output [] ["job_description must be a non-empty string"])
  /\ (job_description <> "" -> students = [] ->
      out = _get_default_output ["students list is empty or invalid"] [])
  /\ (job_description <> "" -> students <> [] ->
      has_key provider = false \/ extract_keywords provider job_description = None ->
      out = _get_default_output []
              ["Job keyword extraction failed. Manual keywords required."]).
Proof.
  cbn zeta. unfold process_job_profile.
  destruct (String.eqb_spec job_description "") as [-> | Hjd].
  { split; [right; right; eauto|]. split; [reflexivity|]. split; congruence. }
  destruct students as [|s0 rest].
  { split; [right; left; eauto|]. split; [congruence|]. split; [reflexivity | congruence]. }
  destruct (process_job_profile_try provider uuid4 job_description (s0 :: rest))
    as [out | e] eqn:E.
  - destruct (process_job_profile_try_spec _ _ _ _ _ E) as (_ & Hw & He).
    split; [|split; [congruence | split; [congruence|]]].
    + destruct He as [He | ->]; [now left | right; right; eauto].
    + intros _ _ Hfail. unfold process_job_profile_try in E.
      destruct Hfail as [Hk | Hx].
      * rewrite Hk in E. now injection E as <-.
      * destruct (has_key provider); cbn in E; [|now injection E as <-].
        rewrite Hx in E. now injection E as <-.
  - split; [right; right; eauto|]. split; [congruence|]. split; [congruence|].
    intros _ _ Hfail. unfold process_job_profile_try in E.
    destruct Hfail as [Hk | Hx].
    + rewrite Hk in E. discriminate.
    + destruct (has_key provider); cbn in E; [|discriminate].
      rewrite Hx in E. discriminate.
Qed.

End PipelineFacts.

(* ================================================================== *)
(** * hpps_improvements.py *)
(* ================================================================== *)

Section ImprovedFacts.
Context `{Builtins}.
Local Open Scope Q_scope.
Import Scoring ScoringSpec Improved.

Lemma within_unit (x : Q) : 0 <= x <= 1 -> Qle_bool 0 x && Qle_bool x 1 = true.
Proof. intros [Hlo Hhi]. apply andb_true_iff. now rewrite !Qle_bool_iff. Qed.

(** X24.  The repository's own [sanity_check_result] accepts every result of
    [calculate_HPPS]: none of its assertions can fail, whatever the
    input signals. *)
Theorem sanity_check_accepts_every_result (s : Signals) :
  sanity_check_result (calculate_HPPS s) = true.
Proof.
  destruct (calculate_HPPS_shape s)
    as (ad & eap & ccl & la & w & Had & Heap & Hccl & Hla & ->).
  pose proof (multiplier_range ad eap ccl ltac:(lra) ltac:(lra) ltac:(lra)) as Hm.
  unfold sanity_check_result. cbn.
  rewrite !within_unit by apply clamp01_bounds. cbn. rewrite ?andb_true_r.
  apply andb_true_iff. split; [apply Qltb_lt | apply Qle_bool_iff]; lra.
Qed.



(** X27.  [calculate_EAP_improved] cannot tell a score of zero from a missing
    one: because of [validate_ai_score(...) or config.default_ai_score],
    passing 0 (or 0.0) for an AI score gives the same result and the same
    warnings as passing [None], i.e. the default score is used. *)
Theorem zero_score_counts_as_missing
    (count complexity stack quality : pyval) (config : Improvements.HPPSConfig)
    (w : list string) :
  calculate_EAP_improved count (VFloat (Fin 0)) stack quality config w
  = calculate_EAP_improved count VNone stack quality config w
  /\ calculate_EAP_improved count complexity (VInt 0) quality config w
     = calculate_EAP_improved count complexity VNone quality config w
  /\ calculate_EAP_improved count complexity stack (VFloat (Fin 0)) config w
     = calculate_EAP_improved count complexity stack VNone config w.
Proof.
  unfold calculate_EAP_improved, mbind, M_bind, bind.
  destruct (validate_non_negative_count count "real_projects_count" w)
    as [[c | e] w1]; [|repeat split].
  split; [reflexivity|].
  destruct (validate_ai_score complexity "project_complexity_score" w1)
    as [[sc | e] w2]; [|repeat split].
  split; [reflexivity|].
  destruct (validate_ai_score stack "stack_diversity" w2)
    as [[ss | e] w3]; [|repeat split].
  reflexivity.
Qed.

End ImprovedFacts.

(* ================================================================== *)
(** * Worked inputs for the conditional properties *)
(* ================================================================== *)

Section WorkedTables.
Local Existing Instance Demo.builtins.
Local Open Scope Q_scope.
Import Scoring.



(** A Codeforces rating of -5 beside a LeetCode rating of 1500. *)
Lemma negative_rating_counts_as_missing_witness :
  fst (get_best_rating_percentile (VFloat (Fin (-5))) (VInt 1500) [])
  = fst (get_best_rating_percentile VNone (VInt 1500) [])
  /\ fst (get_best_rating_percentile (VInt 1500) (VFloat (Fin (-5))) [])
     = fst (get_best_rating_percentile (VInt 1500) VNone []).
Proof. apply negative_rating_counts_as_missing. reflexivity. Defined.


(** Scenario B: [AD = 0.35], [EAP = CCL = 0.9]. *)
Lemma penalty_is_a_jump_witness :
  exists v w1,
    apply_min_dominance_penalty 0.35 0.9 0.9 0.3 0.5 true [] = (Ok v, w1)
    /\ ((0.4 <= Qmin 0.35 (Qmin 0.9 0.9) /\ v = 1 /\ w1 = [])
        \/ (Qmin 0.35 (Qmin 0.9 0.9) < 0.4 /\ 0.5 <= v <= 0.7
            /\ exists msg, w1 = [] ++ [msg])).
Proof.
  apply (penalty_is_a_jump 0.35 0.9 0.9 true []); vm_compute; discriminate.
Defined.

(** Raising [AD] from 0.35 to 0.5 beside [EAP = CCL = 0.9]. *)
Lemma penalty_is_monotone_witness :
  exists v v' w1 w1',
    apply_min_dominance_penalty 0.35 0.9 0.9 0.3 0.5 false [] = (Ok v, w1)
    /\ apply_min_dominance_penalty 0.5 0.9 0.9 0.3 0.5 false [] = (Ok v', w1')
    /\ v <= v'.
Proof.
  apply penalty_is_monotone; vm_compute; discriminate.
Defined.


End WorkedTables.

Section WorkedKeywords.
Local Existing Instance Demo.builtins.
Local Open Scope Q_scope.
Import Matcher Keywords MatcherSpec JobProfile.


(** Scenario C: tags [python] and [backend] against the keywords
    [python], [fastapi], [backend]. *)
Lemma matched_and_unmatched_partition_witness :
  exists r,
    calculate_keyword_match Demo.candidate_c Demo.keywords_c Demo.mandatory_c = Some r
    /\ matched_keywords r ++ unmatched_keywords r ≡ₚ Demo.keywords_c
    /\ sublist (matched_keywords r) Demo.keywords_c
    /\ sublist (unmatched_keywords r) Demo.keywords_c
    /\ (forall k, k ∈ matched_keywords r -> k ∉ unmatched_keywords r)
    /\ (length (matched_keywords r) + length (unmatched_keywords r)
        = total_keywords r)%nat
    /\ 0 <= match_pct r <= 1
    /\ (match_pct r == 1 <-> unmatched_keywords r = []).
Proof.
  apply matched_and_unmatched_partition.
  - vm_compute. discriminate.
  - discriminate.
Defined.

Lemma mandatory_matched_iff_all_match_witness :
  exists r,
    calculate_keyword_match Demo.candidate_c Demo.keywords_c Demo.mandatory_c = Some r
    /\ (mandatory_matched r = true
        <-> Forall (fun mkw =>
                      exists k, normalize_keyword mkw = Some k
                                /\ _check_keyword_match k
                                     (student_keywords Demo.candidate_c) = true)
              Demo.mandatory_c)
    /\ ((exists mkw, mkw ∈ Demo.mandatory_c /\ normalize_keyword mkw = None) ->
        mandatory_matched r = false).
Proof.
  apply mandatory_matched_iff_all_match.
  - vm_compute. discriminate.
  - discriminate.
Defined.

(** [fastapi] matches a candidate tagged [python], hence also one tagged
    [python] and [backend]. *)
Lemma more_tags_never_lose_a_match_witness :
  _check_keyword_match "fastapi" ({["python"]} ∪ {["backend"]}) = true.
Proof.
  apply (more_tags_never_lose_a_match "fastapi" {["python"]}).
  - apply union_subseteq_l.
  - vm_compute. reflexivity.
Defined.


(** Three records, the second without a usable [student_id], and no job
    id: two requests under the fresh identifier. *)
Lemma generate_job_requests_contract_witness :
  exists reqs,
    generate_job_requests "job-1" [Demo.alice; Demo.anonymous; Demo.bob] None = Ok reqs
    /\ map request_student_id reqs = [1%Z; 2%Z]
    /\ Forall (fun q => status q = "PENDING") reqs
    /\ Forall (fun q => job_id q = "job-1") reqs.
Proof.
  destruct (generate_job_requests "job-1" [Demo.alice; Demo.anonymous; Demo.bob] None)
    as [reqs|e] eqn:E; [|vm_compute in E; discriminate].
  destruct (generate_job_requests_contract _ _ _ _ E) as (Hids & _ & Hst & _ & Hjob).
  exists reqs. split; [reflexivity|]. split; [|split].
  - rewrite Hids. vm_compute. reflexivity.
  - exact Hst.
  - apply Hjob. now left.
Defined.

End WorkedKeywords.
